(** * nbodykit.io: the [FileType] indexing layer

    A shallow embedding of [nbodykit/io/__init__.py]: the helper
    [get_slice_size] and the abstract class [FileType] with its properties
    ([columns], [ncol], [shape]), [keys], [__getitem__] and [asarray].

    Python integers are [Z]; exceptions are values of [exn] carried by the
    error monad [result]; a [FileType] instance is a record of the attributes
    the class reads and writes.  The abstract method [read] and the numpy
    array operations applied to what it returns are parameters of the
    development. *)

From Stdlib Require Import ZArith String List Lia Bool.
From stdpp Require Import base decidable option list numbers strings.

Local Open Scope Z_scope.
Local Open Scope string_scope.

(** ** Index expressions

    What can stand between the brackets of [view[...]]: a column name, a
    list, a tuple, an integer, a slice, [None], or anything else. *)

#[warnings="-register-all"]
Inductive index : Type :=
| IStr (name : string)
| IList (items : list index)
| ITuple (items : list index)
| IInt (i : Z)
| ISlice (start stop step : option Z)
| INone
| IOther (repr : string).

(** [isinstance(k, string_types)] *)
Definition is_string (k : index) : bool :=
  match k with IStr _ => true | _ => false end.

(** [k in names] for a Python object [k] and a list of strings [names]:
    only a string compares equal to a string. *)
Definition index_in (k : index) (names : list string) : bool :=
  match k with
  | IStr x => bool_decide (x ∈ names)
  | _ => false
  end.

(** ** Exceptions *)

Inductive exn : Type :=
| ZeroDivisionError
(* columns: list(None) when the dtype has no names *)
| TypeError_names_not_iterable
(* numpy: dtype[name] for a name that is not a field *)
| KeyError_field (name : string)
(* numpy: dtype[i] out of range *)
| IndexError_field (i : Z)
(* numpy.dtype(...): a field name occurs more than once *)
| ValueError_duplicate_field (name : string)
(* slice.indices *)
| ValueError_slice_step_zero
| ValueError_negative_length
(* __getitem__ *)
| IndexError_string_keys (valid : list string)
| IndexError_after_asarray
| IndexError_invalid_keys (invalid : list index)
| IndexError_file_dimension (ndim ntuple : Z)
| IndexError_tuple_not_understood (s : list index)
| IndexError_not_understood (s : index)
| ValueError_view (cause : exn)
(* asarray *)
| ValueError_no_named_fields
| ValueError_multiple_vector
| ValueError_different_types
(* raised by a backend's read or by a numpy array operation *)
| ForeignError (msg : string).

(** ** The error monad *)

Inductive result (T : Type) : Type :=
| Ok (x : T)
| Raise (e : exn).
Arguments Ok {T} x.
Arguments Raise {T} e.

#[global] Instance result_ret : MRet result := fun T x => Ok x.

#[global] Instance result_bind : MBind result := fun T U k m =>
  match m with
  | Ok x => k x
  | Raise e => Raise e
  end.

(** [try: body except Exception as e: raise h(e)] *)
Definition try_except {T : Type} (body : result T) (h : exn -> exn) : result T :=
  match body with
  | Ok x => Ok x
  | Raise e => Raise (h e)
  end.

(** ** get_slice_size *)

(** [N, remainder = divmod(stop-start, step); if remainder: N += 1] *)
Definition get_slice_size (start stop step : Z) : result Z :=
  if decide (step = 0) then Raise ZeroDivisionError
  else
    let '(N, remainder) := Z.div_eucl (stop - start) step in
    Ok (if decide (remainder = 0) then N else N + 1).

(** The indices [i, i+step, ...] strictly below [stop], enumerated with a
    bound on their number. *)
Fixpoint indices_from (fuel : nat) (i stop step : Z) : list Z :=
  match fuel with
  | O => []
  | S n => if decide (i < stop) then i :: indices_from n (i + step) stop step
           else []
  end.

Definition indices_below (start stop step : Z) : list Z :=
  indices_from (Z.to_nat (stop - start)) start stop step.

(** ** numpy dtypes

    The element type of a file: either a plain scalar type, or a structured
    type, an ordered sequence of named fields.  A field has a base scalar
    type and a sub-shape, [()] for a scalar field and e.g. [(3,)] for a
    vector field.  Scalar types are named by their numpy type string, such
    as ["<f4"]. *)

Definition scalar_type := string.

Record field_dtype : Type := mkField {
  f_base : scalar_type;     (* [.base] *)
  f_shape : list Z          (* [.shape] *)
}.

Inductive np_dtype : Type :=
| DScalar (t : scalar_type)
| DStruct (fields : list (string * field_dtype)).

(** [dtype.names]: [None] unless the dtype is structured *)
Definition dtype_names (dt : np_dtype) : option (list string) :=
  match dt with
  | DScalar _ => None
  | DStruct fields => Some (map fst fields)
  end.

(** [len(dtype)]: the number of fields *)
Definition dtype_len (dt : np_dtype) : Z :=
  match dt with
  | DScalar _ => 0
  | DStruct fields => Z.of_nat (length fields)
  end.

(** The fields of a dtype, none for a plain scalar type. *)
Definition dtype_fields (dt : np_dtype) : list (string * field_dtype) :=
  match dt with
  | DScalar _ => []
  | DStruct fields => fields
  end.

(** numpy never builds a structured dtype with a repeated field name. *)
Definition dtype_wf (dt : np_dtype) : Prop :=
  NoDup (map fst (dtype_fields dt)).

Fixpoint lookup_field (col : string) (fields : list (string * field_dtype))
  : option field_dtype :=
  match fields with
  | [] => None
  | (n, f) :: rest => if decide (n = col) then Some f else lookup_field col rest
  end.

(** A test on the field named [col]. *)
Definition on_field (fields : list (string * field_dtype)) (g : field_dtype -> bool)
    (col : string) : bool :=
  match lookup_field col fields with
  | Some f => g f
  | None => false
  end.

(** [len(f.shape)] is not zero *)
Definition is_vector (f : field_dtype) : bool :=
  negb (bool_decide (length (f_shape f) = 0%nat)).

(** [f.base != f0.base] *)
Definition differs_from (f0 f : field_dtype) : bool :=
  bool_decide (f_base f <> f_base f0).

(** [dtype[col]] for a field name *)
Definition dtype_getitem (dt : np_dtype) (col : string) : result field_dtype :=
  match dt with
  | DScalar _ => Raise (KeyError_field col)
  | DStruct fields =>
      match lookup_field col fields with
      | Some f => Ok f
      | None => Raise (KeyError_field col)
      end
  end.

(** [dtype[0]] *)
Definition dtype_first (dt : np_dtype) : result field_dtype :=
  match dt with
  | DStruct ((_, f) :: _) => Ok f
  | _ => Raise (IndexError_field 0)
  end.

Fixpoint first_duplicate (seen names : list string) : option string :=
  match names with
  | [] => None
  | n :: rest => if bool_decide (n ∈ seen) then Some n
                 else first_duplicate (n :: seen) rest
  end.

(** [numpy.dtype([(name, dtype), ...])]: numpy refuses a field name that
    occurs more than once. *)
Definition numpy_dtype (fields : list (string * field_dtype)) : result np_dtype :=
  match first_duplicate [] (map fst fields) with
  | Some n => Raise (ValueError_duplicate_field n)
  | None => Ok (DStruct fields)
  end.

(** ** slice.indices *)

(** [slice(start, stop, step).indices(length)] *)
Definition slice_indices (start stop step : option Z) (length : Z)
  : result (Z * Z * Z) :=
  if decide (length < 0) then Raise ValueError_negative_length
  else
    let step := default 1 step in
    if decide (step = 0) then Raise ValueError_slice_step_zero
    else
      let step_is_negative := bool_decide (step < 0) in
      let lower := if step_is_negative then -1 else 0 in
      let upper := if step_is_negative then length + -1 else length in
      let clamp (v : Z) :=
        if decide (v < 0) then Z.max (v + length) lower else Z.min v upper in
      let start := match start with
                   | None => if step_is_negative then upper else lower
                   | Some v => clamp v
                   end in
      let stop := match stop with
                  | None => if step_is_negative then lower else upper
                  | Some v => clamp v
                  end in
      Ok (start, stop, step).

(** ** The class FileType *)

(** An instance: the attributes [dtype], [size], [_columns], [_shape] and
    [base], the last three possibly unset, and whatever a concrete subclass
    stores for its [read] ([impl]; an object made by [object.__new__] has
    none). *)
#[warnings="-register-all"]
Inductive FileType (A : Type) : Type := mkFileType {
  dtype : np_dtype;
  size : Z;
  _columns : option (list string);
  _shape : option (list Z);
  base : option (FileType A);
  impl : option A
}.
Arguments mkFileType {A}.
Arguments dtype {A}.
Arguments size {A}.
Arguments _columns {A}.
Arguments _shape {A}.
Arguments base {A}.
Arguments impl {A}.

(** What [__getitem__] returns: another file object, or data. *)
Inductive value (A ndarray : Type) : Type :=
| VFile (f : FileType A)
| VArray (a : ndarray).
Arguments VFile {A ndarray}.
Arguments VArray {A ndarray}.

(** The numpy array operations applied to what [read] returns. *)
Class NumpyArray (ndarray : Type) : Type := {
  (* [a.dtype.names] *)
  ndarray_names : ndarray -> option (list string);
  (* [a.view(dtype)] *)
  ndarray_view : ndarray -> np_dtype -> result ndarray;
  (* [a.reshape(shape)] *)
  ndarray_reshape : ndarray -> list Z -> result ndarray;
  (* [a[:, j]] *)
  ndarray_getitem_axis1 : ndarray -> index -> result ndarray
}.

(** The abstract method [read(self, columns, start, stop, step)], to be
    supplied by each concrete subclass. *)
Class Backend (A ndarray : Type) : Type := {
  read : FileType A -> list string -> Z -> Z -> Z -> result ndarray
}.

(** The number of objects on the [base] chain above [self]. *)
Fixpoint base_depth {A : Type} (self : FileType A) : nat :=
  match self with
  | mkFileType _ _ _ _ (Some b) _ => S (base_depth b)
  | mkFileType _ _ _ _ None _ => O
  end.

Section FileType.

Context {A ndarray : Type} `{!NumpyArray ndarray} `{!Backend A ndarray}.

Abbreviation FileType := (FileType A).
Abbreviation value := (value A ndarray).

(** property [columns] *)
Definition columns (self : FileType) : result (list string) :=
  match _columns self with
  | Some c => Ok c
  | None =>
      match dtype_names (dtype self) with
      | Some ns => Ok ns
      | None => Raise TypeError_names_not_iterable
      end
  end.

(** property [ncol] *)
Definition ncol (self : FileType) : result Z :=
  c ← columns self; mret (Z.of_nat (length c)).

(** property [shape] *)
Definition shape (self : FileType) : list Z :=
  match _shape self with
  | Some s => s
  | None => [size self]
  end.

(** [__len__] *)
Definition len (self : FileType) : Z := size self.

(** [keys] *)
Definition keys (self : FileType) : result (list string) := columns self.

(** [self.base] when set, else [self]: the owner of the underlying memory *)
Definition owner (self : FileType) : FileType :=
  match base self with
  | Some b => b
  | None => self
  end.

(** [any(p(col) for col in cols)] *)
Fixpoint any_col (p : string -> result bool) (cols : list string) : result bool :=
  match cols with
  | [] => Ok false
  | col :: rest => b ← p col; if b : bool then Ok true else any_col p rest
  end.

(** [asarray] *)
Definition asarray (self : FileType) : result FileType :=
  let dt := dtype self in
  (* no named fields --> crash *)
  if decide (dtype_len dt = 0) then Raise ValueError_no_named_fields
  else
    names ← match dtype_names dt with
            | Some ns => Ok ns
            | None => Raise TypeError_names_not_iterable
            end;
    (* multiple vector dtypes --> crash *)
    vector ← (if decide (1 < dtype_len dt)
              then any_col (fun col => f ← dtype_getitem dt col; mret (is_vector f))
                           names
              else Ok false);
    if vector : bool then Raise ValueError_multiple_vector
    else
      (* different dtypes --> crash *)
      different ← any_col (fun col => f ← dtype_getitem dt col;
                                      f0 ← dtype_first dt;
                                      mret (differs_from f0 f))
                          names;
      if different : bool then Raise ValueError_different_types
      else
        (* the second axis of the shape *)
        subshape ← (if decide (dtype_len dt = 1)
                    then f0 ← dtype_first dt; mret (f_shape f0)
                    else mret [dtype_len dt]);
        f0 ← dtype_first dt;
        cols ← keys self;
        mret {| dtype := DScalar (f_base f0);
                size := size self;
                _columns := Some cols;
                _shape := Some (size self :: subshape);
                base := Some (owner self);
                impl := None |}.

(** [all(ss in self.keys() for ss in s)] *)
Fixpoint all_in_keys (self : FileType) (s : list index) : result bool :=
  match s with
  | [] => Ok true
  | ss :: rest =>
      ks ← keys self;
      if index_in ss ks then all_in_keys self rest else Ok false
  end.

(** [[col for col in cols if s not in self.keys()]]: the test is on the
    whole index [s], not on the loop variable [col]. *)
Fixpoint invalid_keys (self : FileType) (s : index) (cols : list index)
  : result (list index) :=
  match cols with
  | [] => Ok []
  | col :: rest =>
      ks ← keys self;
      tl ← invalid_keys self s rest;
      mret (if negb (index_in s ks) then col :: tl else tl)
  end.

(** The names in a list of column names. *)
Definition column_names (s : list index) : list string :=
  omap (fun k => match k with IStr x => Some x | _ => None end) s.

(** [[(col, self.dtype[col]) for col in s]] *)
Fixpoint sliced_fields (dt : np_dtype) (cols : list string)
  : result (list (string * field_dtype)) :=
  match cols with
  | [] => Ok []
  | col :: rest =>
      f ← dtype_getitem dt col;
      tl ← sliced_fields dt rest;
      mret ((col, f) :: tl)
  end.

(** The first branch of [__getitem__]: [s] is a list, and [as_array]
    tells whether it was made from a single string. *)
Definition getitem_columns (self : FileType) (s : list index) (as_array : bool)
  : result value :=
  (* must be a list of str *)
  if negb (forallb is_string s)
  then ks ← keys self; Raise (IndexError_string_keys ks)
  else
    (* crash if the dtype has no fields *)
    match dtype_names (dtype self) with
    | None => Raise IndexError_after_asarray
    | Some _ =>
        (* all strings must be valid column names *)
        valid ← all_in_keys self s;
        if negb valid
        then invalid ← invalid_keys self (IList s) s;
             Raise (IndexError_invalid_keys invalid)
        else
          (* create a new object, with slice of dtype *)
          fields ← sliced_fields (dtype self) (column_names s);
          dt ← numpy_dtype fields;
          let obj := {| dtype := dt;
                        size := size self;
                        _columns := None;
                        _shape := None;
                        (* set the owner of the underlying memory *)
                        base := Some (owner self);
                        impl := None |} in
          (* return the single numpy array if only a single column
             was asked for *)
          if bool_decide (length s = 1%nat) && as_array
          then obj' ← asarray obj; mret (VFile obj')
          else mret (VFile obj)
    end.

(** The row range [(start, stop, step)] of an integer or a slice. *)
Definition row_range (self : FileType) (s : index) : result (Z * Z * Z) :=
  match s with
  | IInt i =>
      let i := if decide (i < 0) then i + size self else i in
      Ok (i, i + 1, 1)
  | ISlice start stop step => slice_indices start stop step (size self)
  | _ => Raise (IndexError_not_understood s)
  end.

(** After the read: a file with no named fields views what was read as a
    single numpy array. *)
Definition view_as_array (self : FileType) (toret : ndarray) : result ndarray :=
  if decide (dtype_len (dtype self) = 0)
  then try_except
         (toret ← ndarray_view toret (dtype self);
          if decide (1 < length (shape self))%nat
          then match shape self !! 1%nat with
               | Some n => ndarray_reshape toret [-1; n]
               | None => Raise (ForeignError "tuple index out of range")
               end
          else Ok toret)
         ValueError_view
  else Ok toret.

(** The rest of [__getitem__]: the rows [s], and the index for the second
    dimension, [None] when there is none. *)
Definition getitem_rows (self : FileType) (s second_axis_index : index)
  : result value :=
  '(start, stop, step) ← row_range self s;
  (* call the read function over the desired row range;
     if we don't own memory, return from 'base' attribute *)
  ks ← keys self;
  toret ← read (owner self) ks start stop step;
  toret ← view_as_array self toret;
  (* if we have an index for the second dimension
     then slice the return value *)
  match second_axis_index with
  | INone => mret (VArray toret)
  | j => r ← ndarray_getitem_axis1 toret j; mret (VArray r)
  end.

(** [__getitem__] *)
Definition getitem (self : FileType) (s : index) : result value :=
  match s with
  | IStr x => getitem_columns self [IStr x] true
  | IList l => getitem_columns self l false
  | ITuple t =>
      (* verify the tuple shape *)
      if decide (length (shape self) < length t)%nat
      then Raise (IndexError_file_dimension (Z.of_nat (length (shape self)))
                                            (Z.of_nat (length t)))
      else match t with
           | [s0] => getitem_rows self s0 INone
           | [s0; s1] => getitem_rows self s0 s1
           | _ => Raise (IndexError_tuple_not_understood t)
           end
  | _ => getitem_rows self s INone
  end.

(** The file objects obtained from [root] by indexing and [asarray]. *)
Inductive derived (root : FileType) : FileType -> Prop :=
| derived_root : derived root root
| derived_getitem (p : FileType) (s : index) (v : FileType) :
    derived root p -> getitem p s = Ok (VFile v) -> derived root v
| derived_asarray (p v : FileType) :
    derived root p -> asarray p = Ok v -> derived root v.

(** A file with a structured dtype: the dtype has named fields, no name
    twice, and [columns] is left to default to them. *)
Definition structured (self : FileType) (fields : list (string * field_dtype)) : Prop :=
  dtype self = DStruct fields /\ NoDup (map fst fields) /\ _columns self = None.

(** The three ways a dtype can fail the preconditions of [asarray]. *)
Definition no_named_fields (dt : np_dtype) : Prop :=
  dtype_fields dt = [].

Definition vector_among_several (dt : np_dtype) : Prop :=
  (1 < length (dtype_fields dt))%nat /\
  Exists (fun nf => f_shape nf.2 <> []) (dtype_fields dt).

Definition different_base_types (dt : np_dtype) : Prop :=
  Exists (fun nf => Exists (fun nf' => f_base nf.2 <> f_base nf'.2) (dtype_fields dt))
         (dtype_fields dt).

#[global] Instance no_named_fields_dec dt : Decision (no_named_fields dt).
Proof. unfold no_named_fields. apply _. Defined.

#[global] Instance vector_among_several_dec dt : Decision (vector_among_several dt).
Proof. unfold vector_among_several. apply _. Defined.

#[global] Instance different_base_types_dec dt : Decision (different_base_types dt).
Proof. unfold different_base_types. apply _. Defined.

(** The preconditions of [asarray]: none of the three. *)
Definition asarray_preconditions (dt : np_dtype) : Prop :=
  ~ no_named_fields dt /\ ~ vector_among_several dt /\ ~ different_base_types dt.

(** The second axis of the shape of [asarray]'s result. *)
Definition subshape_of (fields : list (string * field_dtype)) : list Z :=
  match fields with
  | [(_, f)] => f_shape f
  | _ => [Z.of_nat (length fields)]
  end.

(** The names in [names] are all in [keys()]. *)
Definition valid_columns (self : FileType) (names : list string) : Prop :=
  exists ks, keys self = Ok ks /\ Forall (fun n => n ∈ ks) names.

(** An index for the rows alone: an integer or a slice. *)
Definition is_row_index (k : index) : Prop :=
  match k with
  | IInt _ | ISlice _ _ _ => True
  | _ => False
  end.

(** What a backend owes its callers: the array it returns has the columns
    it was asked for, in the order asked. *)
Definition returns_requested_columns : Prop :=
  forall (self : FileType) (cols : list string) (start stop step : Z) (a : ndarray),
    read self cols start stop step = Ok a -> ndarray_names a = Some cols.

End FileType.

Arguments returns_requested_columns A ndarray {_ _}.

(** ** A backend held in memory

    A concrete subclass to run the definitions on: the file is a table of
    integer columns kept in memory, and arrays are lists. *)

Module MemoryFile.

(** Column name, and the values of that column row by row. *)
Definition table : Type := list (string * list Z).

Inductive array : Type :=
| Records (names : list string) (rows : list (list Z))
| Flat (data : list Z)
| Matrix (rows : list (list Z)).

Fixpoint chunks (fuel n : nat) (data : list Z) : list (list Z) :=
  match fuel, data with
  | S f, _ :: _ => take n data :: chunks f n (drop n data)
  | _, _ => []
  end.

(** The values of the columns [cols] in row [i]. *)
Fixpoint row_of (t : table) (cols : list string) (i : Z) : result (list Z) :=
  match cols with
  | [] => Ok []
  | col :: rest =>
      match list_find (fun c => c.1 = col) t with
      | None => Raise (KeyError_field col)
      | Some (_, (_, values)) =>
          match values !! Z.to_nat i with
          | None => Raise (ForeignError "row out of range")
          | Some x => tl ← row_of t rest i; mret (x :: tl)
          end
      end
  end.

Fixpoint rows_of (t : table) (cols : list string) (rows : list Z)
  : result (list (list Z)) :=
  match rows with
  | [] => Ok []
  | i :: rest => r ← row_of t cols i; tl ← rows_of t cols rest; mret (r :: tl)
  end.

#[export] Instance memory_backend : Backend table array := {
  read self cols start stop step :=
    match impl self with
    | None => Raise (ForeignError "not a file")
    | Some t =>
        if decide (step < 1) then Raise (ForeignError "unsupported step")
        else rows ← rows_of t cols (indices_below start stop step);
             mret (Records cols rows)
    end
}.

#[export] Instance memory_array : NumpyArray array := {
  ndarray_names a :=
    match a with
    | Records names _ => Some names
    | _ => None
    end;
  ndarray_view a dt :=
    match a, dt with
    | Records _ rows, DScalar _ => Ok (Flat (concat rows))
    | _, _ => Raise (ForeignError "cannot view")
    end;
  ndarray_reshape a shp :=
    match a, shp with
    | Flat data, [-1; n] =>
        if decide (0 < n) then Ok (Matrix (chunks (length data) (Z.to_nat n) data))
        else Raise (ForeignError "cannot reshape")
    | _, _ => Raise (ForeignError "cannot reshape")
    end;
  ndarray_getitem_axis1 a j :=
    match a, j with
    | Matrix rows, IInt j =>
        if decide (0 <= j)
        then match mapM (fun r : list Z => r !! Z.to_nat j) rows with
             | Some col => Ok (Flat col)
             | None => Raise (ForeignError "index out of bounds")
             end
        else Raise (ForeignError "unsupported index")
    | _, _ => Raise (ForeignError "unsupported index")
    end
}.

Definition int64 : field_dtype := {| f_base := "<i8"; f_shape := [] |}.
Definition float32 : field_dtype := {| f_base := "<f4"; f_shape := [] |}.
Definition int64_3 : field_dtype := {| f_base := "<i8"; f_shape := [3] |}.

Definition catalog_fields : list (string * field_dtype) :=
  [("ra", int64); ("dec", int64); ("z", int64)].

(** A file of three rows with the columns [ra], [dec] and [z]. *)
Definition catalog : FileType table := {|
  dtype := DStruct catalog_fields;
  size := 3;
  _columns := None;
  _shape := None;
  base := None;
  impl := Some [("ra", [235; 140; 129]); ("dec", [59; -1; 45]); ("z", [6; 5; 4])]
|}.

(** [catalog[['dec', 'ra']]] *)
Definition dec_ra : FileType table := {|
  dtype := DStruct [("dec", int64); ("ra", int64)];
  size := 3;
  _columns := None;
  _shape := None;
  base := Some catalog;
  impl := None
|}.

(** [catalog[['dec', 'ra']].asarray()] *)
Definition dec_ra_array : FileType table := {|
  dtype := DScalar "<i8";
  size := 3;
  _columns := Some ["dec"; "ra"];
  _shape := Some [3; 2];
  base := Some catalog;
  impl := None
|}.

(** A file with a vector column beside a scalar one, and one with columns
    of two base types. *)
Definition position_mass : FileType table := {|
  dtype := DStruct [("position", int64_3); ("mass", int64)];
  size := 3;
  _columns := None;
  _shape := None;
  base := None;
  impl := None
|}.

Definition id_mass : FileType table := {|
  dtype := DStruct [("id", int64); ("mass", float32)];
  size := 3;
  _columns := None;
  _shape := None;
  base := None;
  impl := None
|}.

End MemoryFile.

(** ** Further notions used in the properties *)

(** The indices [i, i+step, ...] strictly above [stop], for a negative
    [step], enumerated with a bound on their number. *)
Fixpoint indices_down_from (fuel : nat) (i stop step : Z) : list Z :=
  match fuel with
  | O => []
  | S n => if decide (stop < i) then i :: indices_down_from n (i + step) stop step
           else []
  end.

Definition indices_above (start stop step : Z) : list Z :=
  indices_down_from (Z.to_nat (start - stop)) start stop step.

(** Two facts of numpy about the arrays it makes: [a.view(dtype)] has the
    dtype asked for, so the names of its fields are those of [dtype], and
    [a.reshape(shape)] keeps the dtype of [a]. *)
Definition view_has_dtype (ndarray : Type) `{!NumpyArray ndarray} : Prop :=
  forall (a a' : ndarray) (dt : np_dtype),
    ndarray_view a dt = Ok a' -> ndarray_names a' = dtype_names dt.

Definition reshape_keeps_dtype (ndarray : Type) `{!NumpyArray ndarray} : Prop :=
  forall (a a' : ndarray) (shp : list Z),
    ndarray_reshape a shp = Ok a' -> ndarray_names a' = ndarray_names a.

(** [catalog['dec']] of the file held in memory, an object that has read
    nothing yet. *)
Definition dec_array : FileType MemoryFile.table := {|
  dtype := DScalar "<i8";
  size := 3;
  _columns := Some ["dec"];
  _shape := Some [3];
  base := Some MemoryFile.catalog;
  impl := None
|}.

(** A root file: structured, with the default [columns] and [shape], and
    no base. *)
Definition is_root {A : Type} (r : FileType A) (fields : list (string * field_dtype))
  : Prop :=
  dtype r = DStruct fields /\ NoDup (map fst fields) /\
  _columns r = None /\ _shape r = None /\ base r = None.

(** The two kinds of object derived from a root with the fields
    [root_fields] and [n] rows: a view of some of its columns, and a
    flattened view. *)
Definition column_view {A : Type} (root_fields : list (string * field_dtype))
    (n : Z) (v : FileType A) : Prop :=
  exists fs, dtype v = DStruct fs /\ NoDup (map fst fs) /\ fs ⊆ root_fields /\
             _columns v = None /\ _shape v = None /\ size v = n.

Definition flat_view {A : Type} (root_fields : list (string * field_dtype))
    (n : Z) (v : FileType A) : Prop :=
  exists t cols sub, dtype v = DScalar t /\ _columns v = Some cols /\
                     NoDup cols /\ cols ⊆ map fst root_fields /\
                     _shape v = Some (n :: sub) /\ size v = n.

(** Two objects with the same attributes and the same owner of the
    memory. *)
Definition same_view {A : Type} (v w : FileType A) : Prop :=
  dtype v = dtype w /\ size v = size w /\ _columns v = _columns w /\
  _shape v = _shape w /\ owner v = owner w.

(** An object with the attributes of [MemoryFile.dec_ra] that holds a
    table of its own. *)
Definition dec_ra_loaded : FileType MemoryFile.table := {|
  dtype := DStruct [("dec", MemoryFile.int64); ("ra", MemoryFile.int64)];
  size := 3;
  _columns := None;
  _shape := None;
  base := Some MemoryFile.catalog;
  impl := Some [("dec", [0; 0; 0])]
|}.

(** ** Properties of get_slice_size *)

Section SliceSize.

Lemma indices_from_length (fuel : nat) :
  forall (i stop step N : Z),
    1 <= step -> stop - i <= Z.of_nat fuel ->
    0 <= N -> stop - i <= N * step ->
    (N = 0 \/ (N - 1) * step < stop - i) ->
    Z.of_nat (length (indices_from fuel i stop step)) = N.
Proof.
  induction fuel as [|n IH]; intros i stop step N Hstep Hfuel HN Hup Hlow.
  - simpl. destruct Hlow as [->|Hlow]; [reflexivity|]. nia.
  - simpl. destruct (decide (i < stop)) as [Hlt|Hge].
    + assert (1 <= N) by nia.
      simpl length. rewrite Nat2Z.inj_succ.
      rewrite (IH (i + step) stop step (N - 1)); [lia|lia|lia|lia|nia|].
      destruct (decide (N - 1 = 0)); [left; lia|right; nia].
    + simpl. destruct Hlow as [->|Hlow]; [reflexivity|]. nia.
Qed.

Lemma get_slice_size_bounds (start stop step : Z) :
  start <= stop -> 1 <= step ->
  exists N, get_slice_size start stop step = Ok N /\
            0 <= N /\ stop - start <= N * step /\
            (N = 0 \/ (N - 1) * step < stop - start).
Proof.
  intros Hle Hstep. unfold get_slice_size.
  destruct (decide (step = 0)) as [?|_]; [lia|].
  pose proof (Z_div_mod (stop - start) step ltac:(lia)) as Hdm.
  destruct (Z.div_eucl (stop - start) step) as [q r].
  destruct Hdm as [Heq Hr].
  destruct (decide (r = 0)) as [->|Hr0]; eexists; (split; [reflexivity|]).
  - assert (0 <= q) by nia.
    split; [lia|]. split; [lia|].
    destruct (decide (q = 0)); [left; lia|right; nia].
  - assert (0 <= q) by nia.
    split; [lia|]. split; [nia|]. right. nia.
Qed.

End SliceSize.

(** C2.  For [0 <= start <= stop <= size] and [step >= 1],
    [get_slice_size(start, stop, step)] returns the number of indices
    [start, start+step, ...] strictly below [stop]: it is the length of
    their enumeration, and [start + k*step] is below [stop] exactly for the
    [k] below it. *)
Theorem get_slice_size_counts (size start stop step : Z) :
  0 <= start -> start <= stop -> stop <= size -> 1 <= step ->
  exists N,
    get_slice_size start stop step = Ok N /\
    N = Z.of_nat (length (indices_below start stop step)) /\
    (forall k, 0 <= k -> (start + k * step < stop <-> k < N)).
Proof.
  intros H0 Hle Hsz Hstep.
  destruct (get_slice_size_bounds start stop step Hle Hstep)
    as (N & HN & Hpos & Hup & Hlow).
  exists N. split; [exact HN|]. split.
  - symmetry. unfold indices_below.
    apply indices_from_length; try assumption. lia.
  - intros k Hk. split; intros Hlt.
    + destruct (decide (k < N)) as [?|Hge]; [assumption|]. nia.
    + destruct Hlow as [->|Hlow]; [lia|]. nia.
Qed.

Lemma get_slice_size_counts_witness :
  0 <= 0 /\ 0 <= 10 /\ 10 <= 10 /\ 1 <= 3 /\
  exists N,
    get_slice_size 0 10 3 = Ok N /\
    N = Z.of_nat (length (indices_below 0 10 3)) /\
    (forall k, 0 <= k -> (0 + k * 3 < 10 <-> k < N)).
Proof.
  repeat (split; [lia|]).
  apply (get_slice_size_counts 10 0 10 3); lia.
Defined.

(** [get_slice_size(0, 10, 3) == 4], the indices being 0, 3, 6, 9. *)
Example get_slice_size_0_10_3 :
  get_slice_size 0 10 3 = Ok 4 /\ indices_below 0 10 3 = [0; 3; 6; 9].
Proof. split; reflexivity. Qed.

(** ** Properties of FileType *)

Section FileTypeProperties.

Context {A ndarray : Type} `{!NumpyArray ndarray} `{!Backend A ndarray}.

Implicit Types (self v w p : FileType A) (names ks : list string).
Implicit Types (fields : list (string * field_dtype)).

Lemma keys_structured v fields :
  structured v fields -> keys v = Ok (map fst fields).
Proof.
  intros (Hdt & _ & Hcols). unfold keys, columns. by rewrite Hcols, Hdt.
Qed.

Lemma forallb_is_string names : forallb is_string (IStr <$> names) = true.
Proof. induction names as [|n names IH]; [done|]. by simpl. Qed.

Lemma column_names_strings names : column_names (IStr <$> names) = names.
Proof.
  unfold column_names.
  induction names as [|n names IH]; [done|]. simpl. by f_equal.
Qed.

Lemma all_in_keys_spec v ks (s : list index) :
  keys v = Ok ks ->
  all_in_keys v s = Ok (forallb (fun k => index_in k ks) s).
Proof.
  intros Hks. induction s as [|k s IH]; [done|].
  simpl. rewrite Hks. simpl. destruct (index_in k ks); [exact IH|done].
Qed.

Lemma forallb_index_in names ks :
  forallb (fun k => index_in k ks) (IStr <$> names) = true <->
  Forall (fun n => n ∈ ks) names.
Proof.
  induction names as [|n names IH]; simpl.
  - split; [constructor|done].
  - rewrite andb_true_iff, IH, bool_decide_eq_true, Forall_cons. done.
Qed.

(** The list carried by the invalid-key error is the whole index list. *)
Lemma invalid_keys_all v ks (l cols : list index) :
  keys v = Ok ks -> invalid_keys v (IList l) cols = Ok cols.
Proof.
  intros Hks. induction cols as [|c cols IH]; [done|].
  simpl. rewrite Hks. simpl. by rewrite IH.
Qed.

Lemma lookup_field_elem_of col fields :
  col ∈ map fst fields -> exists f, lookup_field col fields = Some f /\ (col, f) ∈ fields.
Proof.
  induction fields as [|[n f] fields IH]; simpl; intros Hin.
  - by apply elem_of_nil in Hin.
  - destruct (decide (n = col)) as [->|Hne].
    + exists f. split; [done|]. apply list_elem_of_here.
    + apply elem_of_cons in Hin as [?|Hin]; [congruence|].
      destruct (IH Hin) as (f' & ? & ?). exists f'. split; [done|].
      by apply list_elem_of_further.
Qed.

Lemma lookup_field_NoDup col f fields :
  NoDup (map fst fields) -> (col, f) ∈ fields -> lookup_field col fields = Some f.
Proof.
  induction fields as [|[n g] fields IH]; simpl; intros Hnd Hin.
  - by apply elem_of_nil in Hin.
  - apply NoDup_cons in Hnd as [Hn Hnd].
    apply elem_of_cons in Hin as [Heq|Hin].
    + injection Heq as -> ->. by rewrite decide_True.
    + destruct (decide (n = col)) as [->|Hne]; [|by apply IH].
      exfalso. apply Hn. apply list_elem_of_fmap. by exists (col, f).
Qed.

Lemma sliced_fields_names fields names :
  Forall (fun n => n ∈ map fst fields) names ->
  exists fs, sliced_fields (DStruct fields) names = Ok fs /\ map fst fs = names.
Proof.
  induction 1 as [|n names Hn _ (fs & Hfs & Hnames)]; simpl.
  - by exists [].
  - destruct (lookup_field_elem_of n fields Hn) as (f & -> & _).
    simpl. rewrite Hfs. simpl. exists ((n, f) :: fs). split; [done|].
    simpl. by rewrite Hnames.
Qed.

Lemma first_duplicate_NoDup (seen names : list string) :
  NoDup names -> Forall (fun n => n ∉ seen) names ->
  first_duplicate seen names = None.
Proof.
  revert seen. induction names as [|n names IH]; intros seen Hnd Hseen; [done|].
  apply NoDup_cons in Hnd as [Hn Hnd].
  apply Forall_cons in Hseen as [Hns Hseen].
  simpl. rewrite bool_decide_eq_false_2 by done.
  apply IH; [done|].
  apply Forall_forall. intros x Hx Hin.
  apply elem_of_cons in Hin as [->|Hin]; [done|].
  rewrite Forall_forall in Hseen. by apply (Hseen x).
Qed.

Lemma numpy_dtype_NoDup fields :
  NoDup (map fst fields) -> numpy_dtype fields = Ok (DStruct fields).
Proof.
  intros Hnd. unfold numpy_dtype.
  rewrite first_duplicate_NoDup; [done|done|].
  apply Forall_forall. intros x _ Hin. by apply elem_of_nil in Hin.
Qed.

(** Selecting duplicate-free valid columns makes a view of the sliced dtype. *)
Lemma getitem_columns_select v fields names :
  structured v fields -> NoDup names -> valid_columns v names ->
  exists fs,
    sliced_fields (DStruct fields) names = Ok fs /\ map fst fs = names /\
    getitem_columns (ndarray:=ndarray) v (IStr <$> names) false =
      Ok (VFile {| dtype := DStruct fs; size := size v; _columns := None;
                   _shape := None; base := Some (owner v); impl := None |}).
Proof.
  intros Hs Hnd (ks & Hks & Hvalid).
  pose proof (keys_structured v fields Hs) as Hks'.
  assert (ks = map fst fields) as -> by congruence.
  destruct (sliced_fields_names fields names Hvalid) as (fs & Hfs & Hnames).
  exists fs. split; [done|]. split; [done|].
  unfold getitem_columns. rewrite forallb_is_string. simpl.
  destruct Hs as (Hdt & _ & _). rewrite Hdt. simpl.
  rewrite (all_in_keys_spec v (map fst fields)) by done.
  rewrite (proj2 (forallb_index_in names (map fst fields)) Hvalid). simpl.
  rewrite column_names_strings, Hfs. simpl.
  rewrite numpy_dtype_NoDup by (by rewrite Hnames). simpl.
  by rewrite andb_false_r.
Qed.

Lemma view_as_array_structured w (toret : ndarray) :
  dtype_len (dtype w) <> 0 -> view_as_array w toret = Ok toret.
Proof. intros Hlen. unfold view_as_array. by rewrite decide_False. Qed.

Lemma getitem_rows_keys w ks (k j : index) :
  keys w = Ok ks ->
  getitem_rows w k j =
    ('(start, stop, step) ← row_range w k;
     toret ← read (owner w) ks start stop step;
     toret ← view_as_array w toret;
     match j with
     | INone => mret (VArray toret)
     | j => r ← ndarray_getitem_axis1 toret j; mret (VArray r)
     end : result (value A ndarray)).
Proof.
  intros Hks. unfold getitem_rows.
  destruct (row_range w k) as [[[start stop] step]|e]; [|done].
  simpl. by rewrite Hks.
Qed.

Lemma getitem_row_index w (k : index) :
  is_row_index k -> getitem w k = getitem_rows w k INone.
Proof. by destruct k. Qed.

(** *** asarray *)

Lemma any_col_existsb (p : string -> result bool) (q : string -> bool) (cols : list string) :
  (forall col, col ∈ cols -> p col = Ok (q col)) ->
  any_col p cols = Ok (existsb q cols).
Proof.
  induction cols as [|c cols IH]; intros Hp; [done|].
  simpl. rewrite (Hp c) by apply list_elem_of_here. simpl.
  destruct (q c); [done|]. apply IH. intros col Hcol. apply Hp.
  by apply list_elem_of_further.
Qed.

Lemma existsb_on_field fields (g : field_dtype -> bool) :
  NoDup (map fst fields) ->
  existsb (on_field fields g) (map fst fields) = true <->
  Exists (fun nf => g nf.2 = true) fields.
Proof.
  intros Hnd. rewrite existsb_exists, Exists_exists. split.
  - intros (col & Hin & Hg). unfold on_field in Hg.
    apply list_elem_of_In in Hin.
    destruct (lookup_field_elem_of col fields Hin) as (f & Hf & Hmem).
    rewrite Hf in Hg. by exists (col, f).
  - intros ([col f] & Hmem & Hg). exists col. split.
    + apply list_elem_of_In, list_elem_of_fmap. by exists (col, f).
    + unfold on_field. by rewrite (lookup_field_NoDup col f fields).
Qed.

Lemma any_col_on_field fields (g : field_dtype -> bool) :
  any_col (fun col => f ← dtype_getitem (DStruct fields) col; mret (g f))
          (map fst fields)
  = Ok (existsb (on_field fields g) (map fst fields)).
Proof.
  apply any_col_existsb. intros col Hcol. unfold on_field. simpl.
  by destruct (lookup_field_elem_of col fields Hcol) as (f & -> & _).
Qed.

Lemma bind_Ok {T U : Type} (x : T) (k : T -> result U) : (Ok x ≫= k) = k x.
Proof. reflexivity. Qed.

Lemma bind_Raise {T U : Type} (e : exn) (k : T -> result U) :
  (Raise e ≫= k) = Raise e.
Proof. reflexivity. Qed.

(** What [asarray] does on a structured dtype with at least one field. *)
Lemma asarray_structured v fields f0 :
  dtype v = DStruct fields ->
  dtype_first (DStruct fields) = Ok f0 ->
  asarray v =
    if bool_decide (1 < length fields)%nat &&
       existsb (on_field fields is_vector) (map fst fields)
    then Raise ValueError_multiple_vector
    else if existsb (on_field fields (differs_from f0)) (map fst fields)
    then Raise ValueError_different_types
    else cols ← keys v;
         mret {| dtype := DScalar (f_base f0);
                 size := size v;
                 _columns := Some cols;
                 _shape := Some (size v :: subshape_of fields);
                 base := Some (owner v);
                 impl := None |}.
Proof.
  intros Hdt Hf0. unfold asarray. rewrite Hdt, Hf0.
  change (dtype_len (DStruct fields)) with (Z.of_nat (length fields)).
  change (dtype_names (DStruct fields)) with (Some (map fst fields)).
  assert (fields <> []) as Hne by (by destruct fields).
  rewrite decide_False by (destruct fields; [done|simpl; lia]).
  rewrite bind_Ok.
  assert (forall col, col ∈ map fst fields ->
            (f ← dtype_getitem (DStruct fields) col; mret (is_vector f))
            = Ok (on_field fields is_vector col)) as Hvec.
  { intros col Hcol. unfold on_field. simpl.
    by destruct (lookup_field_elem_of col fields Hcol) as (f & -> & _). }
  assert (forall col, col ∈ map fst fields ->
            (f ← dtype_getitem (DStruct fields) col; f0' ← Ok f0;
             mret (differs_from f0' f))
            = Ok (on_field fields (differs_from f0) col)) as Hdiff.
  { intros col Hcol. unfold on_field. simpl.
    by destruct (lookup_field_elem_of col fields Hcol) as (f & -> & _). }
  rewrite (any_col_existsb _ _ _ Hdiff).
  assert ((if decide (1 < Z.of_nat (length fields))
           then any_col (fun col => f ← dtype_getitem (DStruct fields) col;
                                    mret (is_vector f)) (map fst fields)
           else Ok false)
          = Ok (bool_decide (1 < length fields)%nat &&
                existsb (on_field fields is_vector) (map fst fields))) as Hfirst.
  { destruct (decide (1 < Z.of_nat (length fields))).
    - rewrite bool_decide_eq_true_2 by lia. by rewrite (any_col_existsb _ _ _ Hvec).
    - by rewrite bool_decide_eq_false_2 by lia. }
  rewrite Hfirst, bind_Ok.
  destruct (_ && _); [done|].
  rewrite bind_Ok. destruct (existsb _ _); [done|].
  assert ((if decide (Z.of_nat (length fields) = 1)
           then f0' ← Ok f0; mret (f_shape f0')
           else mret [Z.of_nat (length fields)])
          = Ok (subshape_of fields)) as ->; [|by rewrite !bind_Ok].
  destruct fields as [|[n f] [|nf fields]]; simpl in *; try done.
  - by injection Hf0 as ->.
  - rewrite decide_False by lia. done.
Qed.

Lemma is_vector_true (f : field_dtype) : is_vector f = true <-> f_shape f <> [].
Proof.
  unfold is_vector. rewrite negb_true_iff, bool_decide_eq_false.
  destruct (f_shape f); simpl; split; intros H; done.
Qed.

Lemma vector_check_iff fields :
  NoDup (map fst fields) ->
  bool_decide (1 < length fields)%nat &&
    existsb (on_field fields is_vector) (map fst fields) = true <->
  vector_among_several (DStruct fields).
Proof.
  intros Hnd. unfold vector_among_several. simpl.
  rewrite andb_true_iff, bool_decide_eq_true, existsb_on_field by done.
  rewrite !Exists_exists. split.
  - intros (? & nf & ? & ?). split; [done|]. exists nf. by rewrite <- is_vector_true.
  - intros (? & nf & ? & ?). split; [done|]. exists nf. by rewrite is_vector_true.
Qed.

Lemma different_check_iff fields f0 :
  NoDup (map fst fields) ->
  dtype_first (DStruct fields) = Ok f0 ->
  existsb (on_field fields (differs_from f0)) (map fst fields) = true <->
  different_base_types (DStruct fields).
Proof.
  intros Hnd Hf0. unfold different_base_types. simpl.
  rewrite existsb_on_field by done. unfold differs_from.
  assert (exists n0, (n0, f0) ∈ fields) as (n0 & Hin0).
  { destruct fields as [|[n f] rest]; [done|]. injection Hf0 as ->.
    exists n. apply list_elem_of_here. }
  rewrite !Exists_exists. split.
  - intros (nf & Hin & Hb). apply bool_decide_eq_true in Hb.
    exists nf. split; [done|]. apply Exists_exists. by exists (n0, f0).
  - intros (nf & Hin & Hex). apply Exists_exists in Hex as (nf' & Hin' & Hne).
    destruct (decide (f_base nf.2 = f_base f0)) as [Heq|Hneq].
    + exists nf'. split; [done|]. apply bool_decide_eq_true. congruence.
    + exists nf. split; [done|]. by apply bool_decide_eq_true.
Qed.

Lemma keys_of_structured v fields :
  dtype v = DStruct fields -> exists cols, keys v = Ok cols.
Proof.
  intros Hdt. unfold keys, columns. rewrite Hdt.
  destruct (_columns v); eauto.
Qed.

Lemma asarray_no_named_fields v :
  no_named_fields (dtype v) -> asarray v = Raise ValueError_no_named_fields.
Proof.
  unfold no_named_fields, asarray. intros Hno.
  rewrite decide_True; [done|]. by destruct (dtype v) as [t|fields]; simpl in *; subst.
Qed.

(** The outcome of [asarray], by cases on the dtype. *)
Lemma asarray_cases v :
  dtype_wf (dtype v) ->
  (no_named_fields (dtype v) /\ asarray v = Raise ValueError_no_named_fields) \/
  (~ no_named_fields (dtype v) /\ vector_among_several (dtype v) /\
   asarray v = Raise ValueError_multiple_vector) \/
  (~ no_named_fields (dtype v) /\ ~ vector_among_several (dtype v) /\
   different_base_types (dtype v) /\
   asarray v = Raise ValueError_different_types) \/
  (asarray_preconditions (dtype v) /\ exists w, asarray v = Ok w).
Proof.
  intros Hwf.
  destruct (decide (no_named_fields (dtype v))) as [Hno|Hno].
  { left. split; [done|]. by apply asarray_no_named_fields. }
  right. destruct (dtype v) as [t|fields] eqn:Hdt; [done|].
  destruct fields as [|[n0 f0] rest] eqn:Hfields; [done|]. rewrite <- Hfields in *.
  assert (dtype_first (DStruct fields) = Ok f0) as Hf0 by (by subst fields).
  rewrite (asarray_structured v fields f0 Hdt Hf0).
  pose proof (vector_check_iff fields Hwf) as Hvec.
  pose proof (different_check_iff fields f0 Hwf Hf0) as Hdiff.
  destruct (_ && _).
  { left. split; [done|]. split; [|done]. by apply Hvec. }
  right. assert (~ vector_among_several (DStruct fields)) as Hnv.
  { intros H. by apply Hvec in H. }
  destruct (existsb _ _).
  { left. split; [done|]. split; [done|]. split; [|done]. by apply Hdiff. }
  right. split.
  - split; [done|]. split; [done|]. intros H. by apply Hdiff in H.
  - destruct (keys_of_structured v fields Hdt) as (cols & ->). eauto.
Qed.

(** C5.  [asarray] raises a value error exactly when a precondition is
    violated, and the error names the violation: no named fields; several
    fields, one of them a vector; fields of different base types.
    Otherwise it returns the new object. *)
Theorem asarray_raises_iff v :
  dtype_wf (dtype v) ->
  ((exists w, asarray v = Ok w) <-> asarray_preconditions (dtype v)) /\
  ((exists e, asarray v = Raise e) <->
     no_named_fields (dtype v) \/ vector_among_several (dtype v) \/
     different_base_types (dtype v)) /\
  (asarray v = Raise ValueError_no_named_fields <-> no_named_fields (dtype v)) /\
  (asarray v = Raise ValueError_multiple_vector <->
     ~ no_named_fields (dtype v) /\ vector_among_several (dtype v)) /\
  (asarray v = Raise ValueError_different_types <->
     ~ no_named_fields (dtype v) /\ ~ vector_among_several (dtype v) /\
     different_base_types (dtype v)) /\
  (forall e, asarray v = Raise e ->
     e = ValueError_no_named_fields \/ e = ValueError_multiple_vector \/
     e = ValueError_different_types).
Proof.
  intros Hwf. unfold asarray_preconditions.
  destruct (asarray_cases v Hwf)
    as [(H1 & ->)|[(H1 & H2 & ->)|[(H1 & H2 & H3 & ->)|((H1 & H2 & H3) & w & ->)]]].
  all: repeat split; intros;
    repeat match goal with
           | H : exists _, _ |- _ => destruct H
           | H : _ /\ _ |- _ => destruct H
           | H : Raise _ = Raise _ |- _ => injection H as <-
           end;
    try done; eauto; try tauto;
    try match goal with H : vector_among_several _ |- _ => by destruct H end.
Qed.

(** C4.  On a structured file that meets the preconditions, [asarray]
    returns an object of shape [(size,) + subshape], where [subshape] is the
    sub-shape of the only field or else [(number of fields,)], whose
    [columns] are the fields in their original order and whose [size] is the
    parent's. *)
Theorem asarray_shape v fields :
  structured v fields -> asarray_preconditions (dtype v) ->
  exists w,
    asarray v = Ok w /\
    shape w = size v :: subshape_of fields /\
    columns w = Ok (map fst fields) /\
    columns w = columns v /\
    size w = size v /\
    dtype_names (dtype w) = None.
Proof.
  intros Hs (Hno & Hvec & Hdiff).
  pose proof (keys_structured v fields Hs) as Hkeys.
  destruct Hs as (Hdt & Hnd & Hcols). rewrite Hdt in *.
  destruct fields as [|[n0 f0] rest] eqn:Hfields; [done|]. rewrite <- Hfields in *.
  assert (dtype_first (DStruct fields) = Ok f0) as Hf0 by (by subst fields).
  rewrite (asarray_structured v fields f0 Hdt Hf0).
  pose proof (vector_check_iff fields Hnd) as Hv.
  pose proof (different_check_iff fields f0 Hnd Hf0) as Hd.
  destruct (_ && _); [by destruct Hvec; apply Hv|].
  destruct (existsb _ _); [by destruct Hdiff; apply Hd|].
  rewrite Hkeys. eexists. split; [reflexivity|]. by repeat split.
Qed.

(** C1, for lists without repetition.  Indexing a structured file with a
    duplicate-free list of valid column names returns a view whose [columns]
    are the requested names in the requested order and whose [size] is the
    parent's; an integer or slice index on that view reads from the owning
    base with the view's own columns, and, for a non-empty list and a
    backend that returns the columns it is asked for, delivers exactly those
    fields in that order, whatever the parent's field order. *)
Theorem getitem_list_view v fields names :
  structured v fields -> NoDup names -> valid_columns v names ->
  exists w,
    getitem v (IList (IStr <$> names)) = Ok (VFile w) /\
    columns w = Ok names /\
    size w = size v /\
    base w = Some (owner v) /\
    (forall k, is_row_index k ->
       getitem w k =
         '(start, stop, step) ← row_range w k;
         toret ← read (owner v) names start stop step;
         toret ← view_as_array w toret;
         mret (VArray toret)) /\
    (names <> [] -> returns_requested_columns A ndarray ->
     forall k r, is_row_index k -> getitem w k = Ok r ->
       exists a, r = VArray a /\ ndarray_names a = Some names).
Proof.
  intros Hs Hnd Hvalid.
  destruct (getitem_columns_select v fields names Hs Hnd Hvalid)
    as (fs & Hfs & Hnames & Hget).
  eexists. split; [exact Hget|].
  match goal with |- columns ?x = _ /\ _ => remember x as w eqn:Hw end.
  assert (keys w = Ok names) as Hkeys.
  { subst w. unfold keys, columns. simpl. by rewrite Hnames. }
  assert (owner w = owner v) as Hown by (by subst w).
  assert (names <> [] -> dtype_len (dtype w) <> 0) as Hlen.
  { subst w. simpl. intros Hne. destruct fs; [|done]. simpl in Hnames. congruence. }
  split; [exact Hkeys|]. split; [by subst w|]. split; [by subst w|].
  clear Hw. split.
  - intros k Hk. rewrite getitem_row_index by done.
    rewrite (getitem_rows_keys w names) by done. by rewrite Hown.
  - intros Hne Hread k r Hk. rewrite getitem_row_index by done.
    rewrite (getitem_rows_keys w names) by done. rewrite Hown.
    destruct (row_range w k) as [[[start stop] step]|e]; [|done]. simpl.
    destruct (read (owner v) names start stop step) as [a|e] eqn:Hr; [|done].
    simpl. rewrite view_as_array_structured by auto.
    simpl. intros [= <-]. exists a. split; [done|]. by eapply Hread.
Qed.

(** *** Indexing by a single column name *)

Lemma getitem_columns_as_array v (s : list index) :
  length s = 1%nat ->
  getitem_columns v s true =
    (r ← getitem_columns v s false;
     match r with
     | VFile u => w ← asarray u; mret (VFile w)
     | VArray a => mret (VArray a)
     end : result (value A ndarray)).
Proof.
  intros Hlen. unfold getitem_columns.
  destruct (negb (forallb is_string s)); [by destruct (keys v)|].
  destruct (dtype_names (dtype v)); [|done].
  destruct (all_in_keys v s) as [[|]|e]; simpl;
    [|by destruct (invalid_keys v _ s)|done].
  destruct (sliced_fields _ _); [|done]. simpl.
  destruct (numpy_dtype _); [|done]. simpl.
  by rewrite bool_decide_eq_true_2.
Qed.

(** Indexing with a string is indexing with the list of that one string,
    followed by [asarray]. *)
Lemma getitem_string_list v (x : string) :
  getitem v (IStr x) =
    r ← getitem v (IList [IStr x]);
    match r with
    | VFile u => w ← asarray u; mret (VFile w)
    | VArray a => mret (VArray a)
    end.
Proof. by apply getitem_columns_as_array. Qed.

(** Reading rows from a file without named fields. *)
Lemma getitem_flat_rows w (t : scalar_type) ks (sub : list Z) :
  dtype w = DScalar t -> keys w = Ok ks -> shape w = size w :: sub ->
  forall k, is_row_index k ->
    getitem w k =
      '(start, stop, step) ← row_range w k;
      toret ← read (owner w) ks start stop step;
      toret ← try_except
                (toret ← ndarray_view toret (DScalar t);
                 match sub with
                 | [] => Ok toret
                 | n :: _ => ndarray_reshape toret [-1; n]
                 end)
                ValueError_view;
      mret (VArray toret).
Proof.
  intros Hdt Hks Hshape k Hk. rewrite getitem_row_index by done.
  rewrite (getitem_rows_keys w ks) by done.
  destruct (row_range w k) as [[[start stop] step]|e]; [|done].
  rewrite !bind_Ok.
  destruct (read (owner w) ks start stop step) as [toret|e]; [|done].
  rewrite !bind_Ok. unfold view_as_array. rewrite Hdt, Hshape. simpl.
  by destruct sub.
Qed.

(** C3, with the read made explicit.  Indexing a structured file with one
    valid column name [x] does not read: it returns a file object, the very
    one obtained by making the single-column view [[x]] and flattening it
    with [asarray].  Its dtype is the base type of [x], not a structured
    one, its shape is [(size,)] followed by the sub-shape of [x], so one
    dimension for a scalar column, and its size is the parent's.  Reading
    rows from it asks the owning base for the column [x] and views what
    comes back as a single array of that base type, reshaped when [x] is a
    vector; the whole file is the rows from [0] to [size].  With numpy's
    [view] and [reshape], what is read is an array without named fields. *)
Theorem getitem_string_flat v fields (x : string) :
  structured v fields -> valid_columns v [x] ->
  exists u w f,
    getitem v (IList [IStr x]) = Ok (VFile u) /\
    asarray u = Ok w /\
    getitem v (IStr x) = Ok (VFile w) /\
    lookup_field x fields = Some f /\
    dtype w = DScalar (f_base f) /\
    shape w = size v :: f_shape f /\
    size w = size v /\
    columns w = Ok [x] /\
    base w = Some (owner v) /\
    (forall k, is_row_index k ->
       getitem w k =
         '(start, stop, step) ← row_range w k;
         toret ← read (owner v) [x] start stop step;
         toret ← try_except
                   (toret ← ndarray_view toret (DScalar (f_base f));
                    match f_shape f with
                    | [] => Ok toret
                    | n :: _ => ndarray_reshape toret [-1; n]
                    end)
                   ValueError_view;
         mret (VArray toret)) /\
    (0 <= size v -> row_range w (ISlice None None None) = Ok (0, size v, 1)) /\
    (view_has_dtype ndarray -> reshape_keeps_dtype ndarray ->
     forall k r, is_row_index k -> getitem w k = Ok r ->
       exists a, r = VArray a /\ ndarray_names a = None).
Proof.
  intros Hs Hvalid.
  assert (NoDup [x]) as Hnd by (apply NoDup_singleton).
  destruct (getitem_columns_select v fields [x] Hs Hnd Hvalid)
    as (fs & Hfs & Hnames & Hget).
  simpl in Hfs. destruct (lookup_field x fields) as [f|] eqn:Hf; [|done].
  simpl in Hfs. injection Hfs as <-.
  change (getitem_columns v (IStr <$> [x]) false)
    with (getitem v (IList [IStr x])) in Hget.
  match type of Hget with _ = Ok (VFile ?x) => remember x as u eqn:Hu end.
  assert (asarray u =
            Ok {| dtype := DScalar (f_base f); size := size v;
                  _columns := Some [x]; _shape := Some (size v :: f_shape f);
                  base := Some (owner v); impl := None |}) as Hasarray.
  { rewrite (asarray_structured u [(x, f)] f) by (by subst u).
    simpl. unfold on_field, differs_from. simpl. rewrite decide_True by done.
    rewrite bool_decide_eq_false_2 by (by intros []).
    by subst u. }
  match type of Hasarray with _ = Ok ?x => remember x as w eqn:Hw end.
  pose proof (getitem_flat_rows w (f_base f) [x] (f_shape f)) as Hread.
  replace (owner w) with (owner v) in Hread by (by subst w).
  specialize (Hread ltac:(by subst w) ltac:(by subst w) ltac:(by subst w)).
  exists u, w, f. split; [done|]. split; [done|].
  split; [by rewrite getitem_string_list, Hget; simpl; rewrite Hasarray|].
  split; [done|]. split; [by subst w|]. split; [by subst w|].
  split; [by subst w|]. split; [by subst w|]. split; [by subst w|].
  split; [exact Hread|]. split.
  - intros Hsize. subst w. simpl. unfold slice_indices.
    by rewrite decide_False by lia.
  - intros Hview Hreshape k r Hk. rewrite (Hread k Hk).
    destruct (row_range w k) as [[[start stop] step]|e]; [|done].
    rewrite bind_Ok.
    destruct (read (owner v) [x] start stop step) as [toret|e]; [|done].
    rewrite bind_Ok.
    destruct (ndarray_view toret (DScalar (f_base f))) as [t1|e] eqn:Hv; [|done].
    apply Hview in Hv. simpl in Hv. rewrite bind_Ok.
    destruct (f_shape f) as [|n rest].
    + simpl. intros [= <-]. by exists t1.
    + destruct (ndarray_reshape t1 [-1; n]) as [t2|e] eqn:Hr; [|done].
      apply Hreshape in Hr. simpl. intros [= <-]. exists t2. by rewrite Hr.
Qed.

(** *** Invalid names *)

(** The invalid-key error carries every name of the index, the valid ones
    included. *)
Lemma getitem_invalid_keys v fields names :
  structured v fields -> ~ valid_columns v names ->
  getitem v (IList (IStr <$> names)) =
    Raise (IndexError_invalid_keys (IStr <$> names)).
Proof.
  intros Hs Hinvalid.
  pose proof (keys_structured v fields Hs) as Hks.
  simpl. unfold getitem_columns. rewrite forallb_is_string. simpl.
  destruct Hs as (-> & _ & _). simpl.
  rewrite (all_in_keys_spec v (map fst fields)) by done.
  destruct (forallb _ _) eqn:Hall.
  { destruct Hinvalid. exists (map fst fields). split; [done|].
    by apply forallb_index_in. }
  simpl. by rewrite (invalid_keys_all v (map fst fields)).
Qed.

(** *** After asarray *)

(** C7.  Once the dtype has no named fields, as after [asarray], indexing
    with a string or with a list of strings raises the index error that
    says so; an integer or a slice still reads the rows. *)
Theorem getitem_names_after_asarray v :
  dtype_names (dtype v) = None ->
  (forall x : string, getitem v (IStr x) = Raise IndexError_after_asarray) /\
  (forall names, getitem v (IList (IStr <$> names)) = Raise IndexError_after_asarray) /\
  (forall k ks, is_row_index k -> keys v = Ok ks ->
     getitem v k =
       '(start, stop, step) ← row_range v k;
       toret ← read (owner v) ks start stop step;
       toret ← view_as_array v toret;
       mret (VArray toret)).
Proof.
  intros Hnames. split; [|split].
  - intros x. simpl. unfold getitem_columns. simpl. by rewrite Hnames.
  - intros names. simpl. unfold getitem_columns.
    rewrite forallb_is_string. simpl. by rewrite Hnames.
  - intros k ks Hk Hks. rewrite getitem_row_index by done.
    by rewrite (getitem_rows_keys v ks).
Qed.

(** *** Tuples *)

(** C8.  A tuple longer than the rank of the file's shape raises the index
    error that carries both ranks; so a 2-tuple on a file whose shape is the
    default [(size,)] is refused.  On a flattened file of rank two, the
    second element of a 2-tuple is applied to what was read after it has
    been viewed as a single array and reshaped. *)
Theorem getitem_tuple_rank v :
  (forall t, (length (shape v) < length t)%nat ->
     getitem v (ITuple t) =
       Raise (IndexError_file_dimension (Z.of_nat (length (shape v)))
                                        (Z.of_nat (length t)))) /\
  (_shape v = None ->
   forall s0 s1, getitem v (ITuple [s0; s1]) = Raise (IndexError_file_dimension 1 2)) /\
  (forall n m ks s0 s1,
     shape v = [n; m] -> dtype_len (dtype v) = 0 -> keys v = Ok ks ->
     s1 <> INone ->
     getitem v (ITuple [s0; s1]) =
       '(start, stop, step) ← row_range v s0;
       toret ← read (owner v) ks start stop step;
       toret ← try_except (toret ← ndarray_view toret (dtype v);
                           ndarray_reshape toret [-1; m])
                          ValueError_view;
       r ← ndarray_getitem_axis1 toret s1;
       mret (VArray r)).
Proof.
  split; [|split].
  - intros t Hlen. simpl. by rewrite decide_True.
  - intros Hshape s0 s1. simpl. unfold shape. by rewrite Hshape.
  - intros n m ks s0 s1 Hshape Hlen Hks Hs1. simpl. rewrite Hshape. simpl.
    rewrite (getitem_rows_keys v ks) by done.
    destruct (row_range v s0) as [[[start stop] step]|e]; [|done]. simpl.
    destruct (read _ _ _ _ _) as [toret|e]; [|done]. simpl.
    unfold view_as_array. rewrite decide_True by done. rewrite Hshape. simpl.
    destruct (try_except _ _); [|done]. simpl. by destruct s1.
Qed.

(** *** Negative integers *)

(** C9.  A negative integer [i] with [-size <= i < 0] stands for the row
    [i + size]: it resolves to the same row range and returns the same data;
    in particular [view[-1]] is [view[size-1]]. *)
Theorem getitem_negative_index v (i : Z) :
  - size v <= i -> i < 0 ->
  row_range v (IInt i) = Ok (i + size v, i + size v + 1, 1) /\
  row_range v (IInt i) = row_range v (IInt (i + size v)) /\
  getitem v (IInt i) = getitem v (IInt (i + size v)) /\
  getitem v (IInt (-1)) = getitem v (IInt (size v - 1)).
Proof.
  intros Hlo Hhi.
  assert (forall j, - size v <= j -> j < 0 ->
            row_range v (IInt j) = row_range v (IInt (j + size v))) as Hrange.
  { intros j Hj1 Hj2. simpl.
    rewrite decide_True by done. by rewrite decide_False by lia. }
  split; [|split; [|split]].
  - simpl. by rewrite decide_True.
  - by apply Hrange.
  - simpl. unfold getitem_rows. by rewrite Hrange.
  - simpl. unfold getitem_rows. rewrite (Hrange (-1)) by lia.
    by replace (-1 + size v) with (size v - 1) by lia.
Qed.

(** *** The base of a derived object *)

Lemma bind_Ok_inv {T U : Type} (m : result T) (k : T -> result U) (r : U) :
  (m ≫= k) = Ok r -> exists x, m = Ok x /\ k x = Ok r.
Proof. destruct m as [x|e]; [|done]. intros H. by exists x. Qed.

Lemma asarray_base p w : asarray p = Ok w -> base w = Some (owner p).
Proof.
  unfold asarray. intros H.
  destruct (decide _); [done|].
  apply bind_Ok_inv in H as (ns & _ & H).
  apply bind_Ok_inv in H as ([|] & _ & H); [done|].
  apply bind_Ok_inv in H as ([|] & _ & H); [done|].
  apply bind_Ok_inv in H as (sub & _ & H).
  apply bind_Ok_inv in H as (f0 & _ & H).
  apply bind_Ok_inv in H as (cols & _ & H).
  by injection H as <-.
Qed.

Lemma getitem_columns_base p (l : list index) (b : bool) w :
  getitem_columns (ndarray:=ndarray) p l b = Ok (VFile w) ->
  base w = Some (owner p).
Proof.
  unfold getitem_columns. intros H.
  destruct (negb _); [by destruct (keys p)|].
  destruct (dtype_names _); [|done].
  apply bind_Ok_inv in H as ([|] & _ & H); simpl in H;
    [|by destruct (invalid_keys p _ _)].
  apply bind_Ok_inv in H as (fs & _ & H).
  apply bind_Ok_inv in H as (dt & _ & H).
  destruct (_ && _).
  - apply bind_Ok_inv in H as (obj & Hobj & H). injection H as <-.
    by apply asarray_base in Hobj.
  - by injection H as <-.
Qed.

Lemma getitem_rows_array p (k j : index) (r : value A ndarray) :
  getitem_rows p k j = Ok r -> exists a, r = VArray a.
Proof.
  unfold getitem_rows. intros H.
  apply bind_Ok_inv in H as ([[start stop] step] & _ & H).
  apply bind_Ok_inv in H as (ks & _ & H).
  apply bind_Ok_inv in H as (toret & _ & H).
  apply bind_Ok_inv in H as (toret' & _ & H).
  destruct j; try (apply bind_Ok_inv in H as (a & _ & H));
    injection H as <-; eauto.
Qed.

Lemma getitem_base p (s : index) w :
  getitem p s = Ok (VFile w) -> base w = Some (owner p).
Proof.
  destruct s as [x|l|t| | | |]; simpl; intros H;
    try (by apply getitem_columns_base in H);
    try (by apply getitem_rows_array in H as (a & ?)).
  destruct (decide _); [done|].
  destruct t as [|s0 [|s1 [|s2 t]]]; try done;
    by apply getitem_rows_array in H as (a & ?).
Qed.

(** C10.  Column selection and [asarray] both set the base of the new
    object to the parent's base when it has one and to the parent itself
    otherwise.  Hence every object derived from a root, an object with no
    base, has that root as its base: the chain of bases is no longer than
    one, and a read is delegated in a single step. *)
Theorem base_is_root :
  (forall p (s : index) w, getitem p s = Ok (VFile w) -> base w = Some (owner p)) /\
  (forall p w, asarray p = Ok w -> base w = Some (owner p)) /\
  (forall root v, base root = None -> derived root v ->
     (v = root \/ base v = Some root) /\
     owner v = root /\
     (base_depth v <= 1)%nat).
Proof.
  split; [exact getitem_base|]. split; [exact asarray_base|].
  intros root v Hroot Hd.
  assert (owner v = root /\ (v = root \/ base v = Some root)) as [Hown Hv].
  { induction Hd as [|p s v _ [IHown _] Hget|p v _ [IHown _] Has].
    - split; [|by left]. unfold owner. by rewrite Hroot.
    - apply getitem_base in Hget. rewrite IHown in Hget.
      split; [|by right]. unfold owner. by rewrite Hget.
    - apply asarray_base in Has. rewrite IHown in Has.
      split; [|by right]. unfold owner. by rewrite Has. }
  split; [done|]. split; [done|].
  clear Hd Hown. destruct Hv as [Heq|Hb].
  - subst v. destruct root as [? ? ? ? b ?]. simpl in Hroot. subst b. simpl. lia.
  - destruct v as [? ? ? ? b ?]. simpl in Hb. subst b.
    destruct root as [? ? ? ? b ?]. simpl in Hroot. subst b. simpl. lia.
Qed.

End FileTypeProperties.

(** ** The properties at work on the file held in memory *)

Section MemoryFileExamples.

Import MemoryFile.

Lemma catalog_structured : structured catalog catalog_fields.
Proof. split; [reflexivity|]. split; [compute_done|reflexivity]. Qed.

Lemma catalog_valid (names : list string) :
  Forall (fun n => n ∈ ["ra"; "dec"; "z"]) names -> valid_columns catalog names.
Proof. intros H. by exists ["ra"; "dec"; "z"]. Qed.

(** The backend in memory returns the columns it is asked for. *)
Lemma memory_backend_columns : returns_requested_columns table array.
Proof.
  intros self cols start stop step a. simpl.
  destruct (impl self); [|done].
  destruct (decide (step < 1)); [done|].
  destruct (rows_of _ _ _); [|done]. simpl. by intros [= <-].
Qed.

Lemma getitem_list_view_witness :
  structured catalog catalog_fields /\ NoDup ["dec"; "ra"] /\
  valid_columns catalog ["dec"; "ra"] /\
  exists w,
    getitem catalog (IList [IStr "dec"; IStr "ra"]) = Ok (VFile w) /\
    columns w = Ok ["dec"; "ra"] /\
    size w = 3 /\
    forall r, getitem w (IInt 0) = Ok r ->
      exists a, r = VArray a /\ ndarray_names a = Some ["dec"; "ra"].
Proof.
  assert (NoDup ["dec"; "ra"]) as Hnd by compute_done.
  assert (valid_columns catalog ["dec"; "ra"]) as Hvalid
    by (apply catalog_valid; compute_done).
  split; [exact catalog_structured|]. split; [exact Hnd|]. split; [exact Hvalid|].
  destruct (getitem_list_view catalog catalog_fields ["dec"; "ra"]
              catalog_structured Hnd Hvalid)
    as (w & Hget & Hcols & Hsize & _ & _ & Hread).
  exists w. split; [exact Hget|]. split; [exact Hcols|]. split; [exact Hsize|].
  intros r Hr.
  exact (Hread ltac:(discriminate) memory_backend_columns (IInt 0) r I Hr).
Defined.

(** C1 does not extend to a list that names a column twice: each name is
    valid, but numpy refuses to build the sliced dtype and no view is
    returned. *)
Lemma getitem_list_duplicate_counterexample :
  structured catalog catalog_fields /\
  valid_columns catalog ["ra"; "ra"] /\
  getitem catalog (IList [IStr "ra"; IStr "ra"])
    = Raise (ValueError_duplicate_field "ra") /\
  ~ (exists w, getitem catalog (IList [IStr "ra"; IStr "ra"]) = Ok (VFile w) /\
               columns w = Ok ["ra"; "ra"] /\ size w = size catalog).
Proof.
  split; [exact catalog_structured|].
  split; [apply catalog_valid; compute_done|].
  split; [reflexivity|].
  intros (w & Hget & _). vm_compute in Hget. discriminate Hget.
Qed.

(** The arrays of the file held in memory obey the two facts of numpy. *)
Lemma memory_view_has_dtype : view_has_dtype array.
Proof.
  intros a a' dt. simpl. destruct a as [names rows| |]; try done.
  destruct dt as [t|fs]; [|done]. by intros [= <-].
Qed.

Lemma memory_reshape_keeps_dtype : reshape_keeps_dtype array.
Proof.
  intros a a' shp H. simpl in H.
  repeat case_match; try discriminate H. by injection H as <-.
Qed.

Lemma getitem_string_flat_witness :
  structured catalog catalog_fields /\ valid_columns catalog ["dec"] /\
  exists u w,
    getitem catalog (IList [IStr "dec"]) = Ok (VFile u) /\
    asarray u = Ok w /\
    getitem catalog (IStr "dec") = Ok (VFile w) /\
    dtype w = DScalar "<i8" /\
    shape w = [3] /\
    forall r, getitem w (ISlice None None None) = Ok r ->
      exists a, r = VArray a /\ ndarray_names a = None.
Proof.
  assert (valid_columns catalog ["dec"]) as Hvalid
    by (apply catalog_valid; compute_done).
  split; [exact catalog_structured|]. split; [exact Hvalid|].
  destruct (getitem_string_flat catalog catalog_fields "dec"
              catalog_structured Hvalid)
    as (u & w & f & Hlist & Has & Hstr & Hf & Hdt & Hshape & _ & _ & _ & _ & _ & Hflat).
  exists u, w. split; [exact Hlist|]. split; [exact Has|]. split; [exact Hstr|].
  vm_compute in Hf. injection Hf as <-.
  split; [exact Hdt|]. split; [exact Hshape|].
  intros r Hr.
  exact (Hflat memory_view_has_dtype memory_reshape_keeps_dtype
               (ISlice None None None) r I Hr).
Defined.

(** C3 does not hold of what the index itself returns.  On the file with
    columns [ra], [dec] and [z], [catalog['dec']] is a file object and not
    an array: the values come only when that object is read, and are then
    the flat array of the column. *)
Lemma getitem_string_lazy_counterexample :
  structured catalog catalog_fields /\
  valid_columns catalog ["dec"] /\
  getitem catalog (IStr "dec") = Ok (VFile dec_array) /\
  ~ (exists a : array, getitem catalog (IStr "dec") = Ok (VArray a)) /\
  getitem dec_array (ISlice None None None) = Ok (VArray (Flat [59; -1; 45])).
Proof.
  split; [exact catalog_structured|].
  split; [apply catalog_valid; compute_done|].
  split; [reflexivity|].
  split; [|reflexivity].
  intros (a & Ha). vm_compute in Ha. discriminate Ha.
Qed.

Lemma dec_ra_structured : structured dec_ra [("dec", int64); ("ra", int64)].
Proof. split; [reflexivity|]. split; [compute_done|reflexivity]. Qed.

Lemma asarray_shape_witness :
  structured dec_ra [("dec", int64); ("ra", int64)] /\
  asarray_preconditions (dtype dec_ra) /\
  exists w,
    asarray dec_ra = Ok w /\
    shape w = [3; 2] /\
    columns w = Ok ["dec"; "ra"] /\
    size w = 3.
Proof.
  assert (asarray_preconditions (dtype dec_ra)) as Hpre
    by (unfold asarray_preconditions; compute_done).
  split; [exact dec_ra_structured|]. split; [exact Hpre|].
  destruct (asarray_shape dec_ra _ dec_ra_structured Hpre)
    as (w & Has & Hshape & Hcols & _ & Hsize & _).
  exists w. split; [exact Has|]. split; [exact Hshape|].
  split; [exact Hcols|exact Hsize].
Defined.

Lemma asarray_raises_iff_witness :
  dtype_wf (dtype position_mass) /\
  (asarray position_mass = Raise ValueError_multiple_vector <->
     ~ no_named_fields (dtype position_mass) /\
     vector_among_several (dtype position_mass)).
Proof.
  assert (dtype_wf (dtype position_mass)) as Hwf by (unfold dtype_wf; compute_done).
  split; [exact Hwf|].
  exact (proj1 (proj2 (proj2 (proj2 (asarray_raises_iff position_mass Hwf))))).
Defined.

(** The two violations named in the specification. *)
Example asarray_violations :
  asarray position_mass = Raise ValueError_multiple_vector /\
  asarray id_mass = Raise ValueError_different_types /\
  asarray dec_ra_array = Raise ValueError_no_named_fields.
Proof. repeat split. Qed.

(** C6.  The invalid-key error does not carry the invalid names alone.  On
    the file with columns [ra], [dec] and [z], the index [['ra', 'zz']]
    raises the error with both names, the valid [ra] along with the invalid
    [zz]: the comprehension that collects the invalid names tests the whole
    index instead of each name. *)
Theorem getitem_invalid_keys_lists_valid_names :
  keys catalog = Ok ["ra"; "dec"; "z"] /\
  getitem catalog (IList [IStr "ra"; IStr "zz"])
    = Raise (IndexError_invalid_keys [IStr "ra"; IStr "zz"]) /\
  getitem catalog (IList [IStr "ra"; IStr "zz"])
    <> Raise (IndexError_invalid_keys [IStr "zz"]).
Proof. repeat split. discriminate. Qed.

Lemma getitem_names_after_asarray_witness :
  dtype_names (dtype dec_ra_array) = None /\
  getitem dec_ra_array (IStr "dec") = Raise IndexError_after_asarray /\
  getitem dec_ra_array (IList [IStr "dec"; IStr "ra"]) = Raise IndexError_after_asarray.
Proof.
  assert (dtype_names (dtype dec_ra_array) = None) as Hflat by reflexivity.
  split; [exact Hflat|].
  destruct (getitem_names_after_asarray dec_ra_array Hflat) as (Hstr & Hlist & _).
  split; [exact (Hstr "dec")|exact (Hlist ["dec"; "ra"])].
Defined.

Lemma getitem_tuple_rank_witness :
  (length (shape catalog) < length [IInt 0; IInt 0])%nat /\
  getitem catalog (ITuple [IInt 0; IInt 0]) = Raise (IndexError_file_dimension 1 2) /\
  shape dec_ra_array = [3; 2] /\
  getitem dec_ra_array (ITuple [ISlice None None None; IInt 0])
    = Ok (VArray (Flat [59; -1; 45])).
Proof.
  assert (length (shape catalog) < length [IInt 0; IInt 0])%nat as Hlen
    by (vm_compute; lia).
  split; [exact Hlen|].
  destruct (getitem_tuple_rank catalog) as (Hrank & _ & _).
  split; [exact (Hrank [IInt 0; IInt 0] Hlen)|].
  split; [reflexivity|].
  destruct (getitem_tuple_rank dec_ra_array) as (_ & _ & Hsecond).
  rewrite (Hsecond 3 2 ["dec"; "ra"] (ISlice None None None) (IInt 0));
    [reflexivity|reflexivity|reflexivity|reflexivity|discriminate].
Defined.

Lemma getitem_negative_index_witness :
  - size dec_ra <= -1 /\ -1 < 0 /\
  getitem dec_ra (IInt (-1)) = getitem dec_ra (IInt (size dec_ra - 1)) /\
  getitem dec_ra (IInt (-1)) = Ok (VArray (Records ["dec"; "ra"] [[45; 129]])).
Proof.
  assert (- size dec_ra <= -1) as Hlo by (vm_compute; discriminate).
  assert (-1 < 0) as Hhi by lia.
  split; [exact Hlo|]. split; [exact Hhi|].
  destruct (getitem_negative_index dec_ra (-1) Hlo Hhi) as (_ & _ & _ & Hlast).
  split; [exact Hlast|reflexivity].
Defined.

Lemma base_is_root_witness :
  base catalog = None /\
  derived catalog dec_ra_array /\
  base dec_ra_array = Some catalog /\
  (base_depth dec_ra_array <= 1)%nat.
Proof.
  assert (base catalog = None) as Hroot by reflexivity.
  assert (derived (ndarray:=array) catalog dec_ra_array) as Hd.
  { apply (derived_asarray catalog dec_ra).
    - apply (derived_getitem catalog catalog (IList [IStr "dec"; IStr "ra"])).
      + apply derived_root.
      + reflexivity.
    - reflexivity. }
  split; [exact Hroot|]. split; [exact Hd|].
  destruct base_is_root as (_ & _ & Hbase).
  destruct (Hbase catalog dec_ra_array Hroot Hd) as ([Heq|Hb] & _ & Hdepth).
  - discriminate Heq.
  - split; [exact Hb|exact Hdepth].
Defined.

End MemoryFileExamples.

(** ** Further properties of get_slice_size *)

Lemma indices_down_from_length (fuel : nat) :
  forall (i stop step N : Z),
    step <= -1 -> i - stop <= Z.of_nat fuel ->
    0 <= N -> i - stop <= N * (- step) ->
    (N = 0 \/ (N - 1) * (- step) < i - stop) ->
    Z.of_nat (length (indices_down_from fuel i stop step)) = N.
Proof.
  induction fuel as [|n IH]; intros i stop step N Hstep Hfuel HN Hup Hlow.
  - simpl. destruct Hlow as [->|Hlow]; [reflexivity|]. nia.
  - simpl. destruct (decide (stop < i)) as [Hlt|Hge].
    + assert (1 <= N) by nia.
      simpl length. rewrite Nat2Z.inj_succ.
      rewrite (IH (i + step) stop step (N - 1)); [lia|lia|lia|lia|nia|].
      destruct (decide (N - 1 = 0)); [left; lia|right; nia].
    + simpl. destruct Hlow as [->|Hlow]; [reflexivity|]. nia.
Qed.

(** With a negative step and [stop <= start], [get_slice_size] counts the
    indices [start, start+step, ...] strictly above [stop]. *)
Theorem get_slice_size_negative_step (start stop step : Z) :
  stop <= start -> step <= -1 ->
  exists N,
    get_slice_size start stop step = Ok N /\
    N = Z.of_nat (length (indices_above start stop step)) /\
    (forall k, 0 <= k -> (stop < start + k * step <-> k < N)).
Proof.
  intros Hle Hstep. unfold get_slice_size.
  destruct (decide (step = 0)) as [?|_]; [lia|].
  pose proof (Z_div_mod_full (stop - start) step ltac:(lia)) as Hdm.
  destruct (Z.div_eucl (stop - start) step) as [q r].
  destruct Hdm as [Heq [Hr|Hr]]; [lia|].
  set (N := if decide (r = 0) then q else q + 1).
  assert (0 <= N /\ start - stop <= N * (- step) /\
          (N = 0 \/ (N - 1) * (- step) < start - stop)) as (Hpos & Hup & Hlow).
  { subst N. destruct (decide (r = 0)) as [->|Hr0].
    - assert (0 <= q) by nia. split; [lia|]. split; [lia|].
      destruct (decide (q = 0)); [left; lia|right; nia].
    - assert (0 <= q) by nia. split; [lia|]. split; [nia|]. right. nia. }
  exists N. split; [done|]. split.
  - symmetry. unfold indices_above. apply indices_down_from_length; try done. lia.
  - intros k Hk. split; intros Hlt.
    + destruct (decide (k < N)) as [?|Hge]; [assumption|]. nia.
    + destruct Hlow as [HN0|Hlow]; [lia|]. nia.
Qed.

Lemma get_slice_size_negative_step_witness :
  0 <= 10 /\ -3 <= -1 /\
  get_slice_size 10 0 (-3) = Ok 4 /\ indices_above 10 0 (-3) = [10; 7; 4; 1].
Proof.
  split; [lia|]. split; [lia|].
  destruct (get_slice_size_negative_step 10 0 (-3)) as (N & HN & Hlen & _); [lia|lia|].
  split; [|reflexivity].
  rewrite HN, Hlen. reflexivity.
Defined.



(** ** Further properties of FileType *)

Section FileTypeLaws.

Context {A ndarray : Type} `{!NumpyArray ndarray} `{!Backend A ndarray}.

Implicit Types (self v w u p : FileType A) (names ks : list string).
Implicit Types (fields fs : list (string * field_dtype)).

(** *** What a successful call tells *)

Lemma forallb_is_string_inv (l : list index) :
  forallb is_string l = true -> l = IStr <$> column_names l.
Proof.
  induction l as [|k l IH]; [done|]. simpl. intros [Hk Hl]%andb_true_iff.
  destruct k; try done. unfold column_names in *. simpl. f_equal. by apply IH.
Qed.

Lemma first_duplicate_None_inv (seen names : list string) :
  first_duplicate seen names = None ->
  NoDup names /\ Forall (fun n => n ∉ seen) names.
Proof.
  revert seen. induction names as [|n names IH]; intros seen H.
  - split; constructor.
  - simpl in H. destruct (bool_decide (n ∈ seen)) eqn:Hn; [done|].
    apply bool_decide_eq_false in Hn.
    destruct (IH _ H) as [Hnd Hseen]. rewrite Forall_forall in Hseen.
    split.
    + apply NoDup_cons. split; [|done]. intros Hin.
      apply (Hseen n Hin). apply list_elem_of_here.
    + apply Forall_cons. split; [done|]. apply Forall_forall. intros x Hx Hin.
      apply (Hseen x Hx). by apply list_elem_of_further.
Qed.

Lemma numpy_dtype_inv fs (dt : np_dtype) :
  numpy_dtype fs = Ok dt -> dt = DStruct fs /\ NoDup (map fst fs).
Proof.
  unfold numpy_dtype. destruct (first_duplicate [] _) eqn:Hd; [done|].
  intros [= <-]. split; [done|]. by apply first_duplicate_None_inv in Hd as [? _].
Qed.

Lemma lookup_field_Some_elem_of (col : string) (f : field_dtype) fs :
  lookup_field col fs = Some f -> (col, f) ∈ fs.
Proof.
  induction fs as [|[n g] fs IH]; simpl; [done|].
  destruct (decide (n = col)) as [->|Hne].
  - intros [= ->]. apply list_elem_of_here.
  - intros H. apply list_elem_of_further. by apply IH.
Qed.

Lemma sliced_fields_inv fs0 names fs :
  sliced_fields (DStruct fs0) names = Ok fs ->
  map fst fs = names /\
  Forall (fun nf => lookup_field nf.1 fs0 = Some nf.2) fs.
Proof.
  revert fs. induction names as [|n names IH]; simpl; intros fs H.
  - injection H as <-. split; [done|constructor].
  - destruct (lookup_field n fs0) as [f|] eqn:Hf; [|done]. simpl in H.
    destruct (sliced_fields (DStruct fs0) names) as [tl|]; [|done].
    simpl in H. injection H as <-. destruct (IH tl eq_refl) as [Hn Hall].
    split; [simpl; by rewrite Hn|]. by constructor.
Qed.

Lemma sliced_fields_lookups fs0 fs :
  Forall (fun nf => lookup_field nf.1 fs0 = Some nf.2) fs ->
  sliced_fields (DStruct fs0) (map fst fs) = Ok fs.
Proof.
  induction 1 as [|[n f] fs Hf _ IH]; [done|].
  simpl in *. rewrite Hf. simpl. by rewrite IH.
Qed.

(** Slicing a dtype by all of its names gives it back. *)
Lemma sliced_fields_all fs0 :
  NoDup (map fst fs0) -> sliced_fields (DStruct fs0) (map fst fs0) = Ok fs0.
Proof.
  intros Hnd. apply sliced_fields_lookups. apply Forall_forall.
  intros [n f] Hin. by apply lookup_field_NoDup.
Qed.

(** In a sliced dtype a selected name has the field it has in the parent. *)
Lemma lookup_field_sliced fs0 names fs (col : string) :
  sliced_fields (DStruct fs0) names = Ok fs -> col ∈ names ->
  lookup_field col fs = lookup_field col fs0.
Proof.
  revert fs. induction names as [|n names IH]; simpl; intros fs H Hin.
  - by apply elem_of_nil in Hin.
  - destruct (lookup_field n fs0) as [f|] eqn:Hf; [|done]. simpl in H.
    destruct (sliced_fields (DStruct fs0) names) as [tl|]; [|done].
    simpl in H. injection H as <-. simpl.
    destruct (decide (n = col)) as [->|Hne]; [done|].
    apply elem_of_cons in Hin as [->|Hin]; [done|]. by apply IH.
Qed.

Lemma all_in_keys_inv v names :
  all_in_keys v (IStr <$> names) = Ok true ->
  names = [] \/ exists ks, keys v = Ok ks /\ Forall (fun n => n ∈ ks) names.
Proof.
  destruct names as [|n names]; [by left|]. intros H. right.
  destruct (keys v) as [ks|e] eqn:Hks; [|by simpl in H; rewrite Hks in H].
  exists ks. split; [done|].
  rewrite (all_in_keys_spec v ks) in H by done. injection H as H.
  by apply forallb_index_in.
Qed.

(** What [asarray] has built when it returns. *)
Lemma asarray_inv v w :
  asarray v = Ok w ->
  exists f0 cols sub,
    dtype_first (dtype v) = Ok f0 /\ keys v = Ok cols /\
    w = {| dtype := DScalar (f_base f0); size := size v;
           _columns := Some cols; _shape := Some (size v :: sub);
           base := Some (owner v); impl := None |}.
Proof.
  unfold asarray. intros H.
  destruct (decide _); [done|].
  apply bind_Ok_inv in H as (ns & _ & H).
  apply bind_Ok_inv in H as ([|] & _ & H); [done|].
  apply bind_Ok_inv in H as ([|] & _ & H); [done|].
  apply bind_Ok_inv in H as (sub & _ & H).
  apply bind_Ok_inv in H as (f0 & Hf0 & H).
  apply bind_Ok_inv in H as (cols & Hcols & H).
  injection H as <-. by exists f0, cols, sub.
Qed.

(** What the first branch of [__getitem__] has checked and built when it
    returns. *)
Lemma getitem_columns_inv v (l : list index) (b : bool) (r : value A ndarray) :
  getitem_columns v l b = Ok r ->
  exists names fs0 fs,
    l = IStr <$> names /\
    dtype v = DStruct fs0 /\
    (names = [] \/ exists ks, keys v = Ok ks /\ Forall (fun n => n ∈ ks) names) /\
    sliced_fields (DStruct fs0) names = Ok fs /\
    NoDup names /\ map fst fs = names /\
    let obj := {| dtype := DStruct fs; size := size v; _columns := None;
                  _shape := None; base := Some (owner v); impl := None |} in
    if bool_decide (length l = 1%nat) && b
    then exists w, asarray obj = Ok w /\ r = VFile w
    else r = VFile obj.
Proof.
  unfold getitem_columns. intros H.
  destruct (forallb is_string l) eqn:Hstr; simpl in H; [|by destruct (keys v)].
  apply forallb_is_string_inv in Hstr.
  destruct (dtype v) as [t|fs0] eqn:Hdt; [done|]. simpl in H.
  apply bind_Ok_inv in H as ([|] & Hall & H); simpl in H;
    [|by destruct (invalid_keys v _ _)].
  apply bind_Ok_inv in H as (fs & Hfs & H).
  apply bind_Ok_inv in H as (dt & Hnp & H).
  apply numpy_dtype_inv in Hnp as [-> Hnd].
  destruct (sliced_fields_inv _ _ _ Hfs) as [Hnames _].
  exists (column_names l), fs0, fs.
  split; [done|]. split; [done|].
  split; [apply all_in_keys_inv; by rewrite <- Hstr|].
  split; [done|]. split; [by rewrite <- Hnames|]. split; [done|].
  simpl. destruct (_ && _).
  - apply bind_Ok_inv in H as (w & Hw & H). injection H as <-. eauto.
  - by injection H as <-.
Qed.

(** *** Indexing looks at the attributes only *)

Lemma same_view_keys v w : same_view v w -> keys v = keys w.
Proof. intros (Hdt & _ & Hc & _). unfold keys, columns. by rewrite Hdt, Hc. Qed.

Lemma same_view_shape v w : same_view v w -> shape v = shape w.
Proof. intros (_ & Hsz & _ & Hsh & _). unfold shape. by rewrite Hsz, Hsh. Qed.

Lemma all_in_keys_same v w (l : list index) :
  keys v = keys w -> all_in_keys v l = all_in_keys w l.
Proof.
  intros Hk. induction l as [|k l IH]; [done|]. simpl. rewrite Hk.
  destruct (keys w) as [ks|]; [|done]. simpl. by destruct (index_in k ks).
Qed.

Lemma invalid_keys_same v w (s : index) (l : list index) :
  keys v = keys w -> invalid_keys v s l = invalid_keys w s l.
Proof.
  intros Hk. induction l as [|k l IH]; [done|]. simpl. by rewrite Hk, IH.
Qed.

Lemma asarray_same v w : same_view v w -> asarray v = asarray w.
Proof.
  intros Hs. pose proof (same_view_keys v w Hs) as Hk.
  destruct Hs as (Hdt & Hsz & _ & _ & Hown).
  unfold asarray. by rewrite Hdt, Hsz, Hk, Hown.
Qed.

Lemma getitem_columns_same v w (l : list index) (b : bool) :
  same_view v w ->
  getitem_columns (ndarray:=ndarray) v l b = getitem_columns w l b.
Proof.
  intros Hs. pose proof (same_view_keys v w Hs) as Hk.
  destruct Hs as (Hdt & Hsz & _ & _ & Hown).
  unfold getitem_columns.
  rewrite Hk, Hdt, Hsz, Hown, (all_in_keys_same v w l Hk).
  by rewrite (invalid_keys_same v w _ l Hk).
Qed.

Lemma getitem_rows_same v w (k j : index) :
  same_view v w -> getitem_rows v k j = getitem_rows w k j.
Proof.
  intros Hs. pose proof (same_view_keys v w Hs) as Hk.
  pose proof (same_view_shape v w Hs) as Hsh.
  destruct Hs as (Hdt & Hsz & _ & _ & Hown).
  unfold getitem_rows, view_as_array, row_range.
  by rewrite Hk, Hdt, Hsz, Hown, Hsh.
Qed.

Lemma getitem_same v w (s : index) :
  same_view v w -> getitem v s = getitem w s.
Proof.
  intros Hs. destruct s as [x|l|t| | | |]; simpl;
    try (by apply getitem_columns_same); try (by apply getitem_rows_same).
  rewrite (same_view_shape v w Hs).
  destruct (decide _); [done|].
  destruct t as [|s0 [|s1 [|s2 t]]]; try done; by apply getitem_rows_same.
Qed.

(** Indexing and [asarray] see an object only through its [dtype], [size],
    [columns], [shape] and the owner of its memory: two objects that agree
    on these give the same results, whatever else they hold and whether or
    not they are the owner themselves. *)
Theorem getitem_same_view v w :
  same_view v w ->
  (forall s : index, getitem v s = getitem w s) /\ asarray v = asarray w.
Proof.
  intros Hs. split; [|by apply asarray_same].
  intros s. by apply getitem_same.
Qed.

(** *** Selecting columns *)

(** Selecting all the columns of a structured file, in their order, gives a
    view with the same dtype, columns, size and shape, and every index and
    [asarray] give on it what they give on the file. *)
Theorem getitem_all_columns v fs :
  structured v fs -> _shape v = None ->
  exists w,
    getitem v (IList (IStr <$> map fst fs)) = Ok (VFile w) /\
    dtype w = dtype v /\ columns w = columns v /\ size w = size v /\
    shape w = shape v /\
    (forall s : index, getitem w s = getitem v s) /\
    asarray w = asarray v.
Proof.
  intros Hs Hshape.
  pose proof (keys_structured v fs Hs) as Hkeys.
  assert (valid_columns v (map fst fs)) as Hvalid.
  { exists (map fst fs). split; [done|]. by apply Forall_forall. }
  destruct (getitem_columns_select (ndarray:=ndarray) v fs (map fst fs) Hs (proj1 (proj2 Hs)) Hvalid)
    as (fs' & Hfs' & _ & Hget).
  rewrite sliced_fields_all in Hfs' by apply Hs. injection Hfs' as <-.
  eexists. split; [exact Hget|].
  match goal with |- dtype ?x = _ /\ _ => remember x as w eqn:Hw end.
  assert (same_view w v) as Hsame.
  { destruct Hs as (Hdt & _ & Hcols). subst w. unfold same_view. simpl.
    by rewrite Hdt, Hcols, Hshape. }
  split; [apply Hsame|].
  split; [apply (same_view_keys w v Hsame)|].
  split; [apply Hsame|].
  split; [by apply same_view_shape|].
  split; [|by apply asarray_same].
  intros s. by apply getitem_same.
Qed.

Lemma sliced_fields_agree fs1 fs0 names :
  (forall col, col ∈ names -> lookup_field col fs1 = lookup_field col fs0) ->
  sliced_fields (DStruct fs1) names = sliced_fields (DStruct fs0) names.
Proof.
  induction names as [|n names IH]; intros Hl; [done|]. simpl.
  rewrite (Hl n) by apply list_elem_of_here.
  rewrite IH; [done|]. intros col Hcol. apply Hl. by apply list_elem_of_further.
Qed.

Lemma getitem_columns_of_view v fs names1 fs1 names2 (b : bool) :
  structured v fs -> valid_columns v names1 ->
  sliced_fields (DStruct fs) names1 = Ok fs1 -> map fst fs1 = names1 ->
  Forall (fun n => n ∈ names1) names2 ->
  getitem_columns (ndarray:=ndarray)
    {| dtype := DStruct fs1; size := size v; _columns := None;
       _shape := None; base := Some (owner v); impl := None |}
    (IStr <$> names2) b
  = getitem_columns v (IStr <$> names2) b.
Proof.
  intros Hs (ks & Hks & Hvalid) Hfs1 Hnames1 Hsub.
  pose proof (keys_structured v fs Hs) as Hkeys.
  assert (ks = map fst fs) as -> by congruence.
  destruct Hs as (Hdt & _ & _).
  unfold getitem_columns. rewrite forallb_is_string. simpl negb.
  rewrite Hdt. simpl dtype_names. cbv iota.
  rewrite (all_in_keys_spec _ names1) by (unfold keys, columns; simpl; by rewrite Hnames1).
  rewrite (all_in_keys_spec v (map fst fs)) by done.
  rewrite (proj2 (forallb_index_in names2 names1) Hsub).
  assert (Forall (fun n => n ∈ map fst fs) names2) as Hsub'.
  { rewrite Forall_forall in *. auto. }
  rewrite (proj2 (forallb_index_in names2 (map fst fs)) Hsub').
  rewrite !bind_Ok. simpl negb. cbv iota.
  rewrite column_names_strings. simpl dtype.
  rewrite (sliced_fields_agree fs1 fs names2); [done|].
  intros col Hcol. apply (lookup_field_sliced fs names1); [done|].
  rewrite Forall_forall in Hsub. by apply Hsub.
Qed.

(** Selecting columns from a view of columns is selecting them from the
    file: for names among those of the view, a list of names, or a single
    name, gives on the view what it gives on the file it was taken from. *)
Theorem getitem_columns_compose v fs names1 names2 :
  structured v fs -> NoDup names1 -> valid_columns v names1 ->
  Forall (fun n => n ∈ names1) names2 ->
  exists u,
    getitem v (IList (IStr <$> names1)) = Ok (VFile u) /\
    getitem u (IList (IStr <$> names2)) = getitem v (IList (IStr <$> names2)) /\
    (forall x : string, x ∈ names1 -> getitem u (IStr x) = getitem v (IStr x)).
Proof.
  intros Hs Hnd Hvalid Hsub.
  destruct (getitem_columns_select (ndarray:=ndarray) v fs names1 Hs Hnd Hvalid)
    as (fs1 & Hfs1 & Hnames1 & Hget).
  eexists. split; [exact Hget|]. split.
  - by apply (getitem_columns_of_view v fs names1 fs1 names2 false).
  - intros x Hx.
    apply (getitem_columns_of_view v fs names1 fs1 [x] true); try done.
    by apply Forall_singleton.
Qed.

(** A list index returns a view only when its items are strings, no two the
    same, all of them among the keys; the view then has exactly these
    columns, the size of the file, the default shape, and for each column
    the field type it has in the file. *)
Theorem getitem_list_sound v (l : list index) w :
  getitem v (IList l) = Ok (VFile w) ->
  exists names,
    l = IStr <$> names /\ NoDup names /\
    (exists ks, keys v = Ok ks /\ Forall (fun n => n ∈ ks) names) /\
    columns w = Ok names /\ size w = size v /\ shape w = [size v] /\
    (forall col, col ∈ names ->
       dtype_getitem (dtype w) col = dtype_getitem (dtype v) col).
Proof.
  intros H. simpl in H.
  apply getitem_columns_inv in H
    as (names & fs0 & fs & -> & Hdt & Hkeys & Hfs & Hnd & Hnames & Hobj).
  rewrite andb_false_r in Hobj. simpl in Hobj. injection Hobj as ->.
  exists names. split; [done|]. split; [done|]. split.
  { destruct Hkeys as [->|?]; [|done].
    destruct (keys_of_structured v fs0 Hdt) as (ks & Hks).
    exists ks. split; [done|constructor]. }
  split; [unfold columns; simpl; by rewrite Hnames|].
  split; [done|]. split; [done|].
  intros col Hcol. rewrite Hdt. simpl.
  by rewrite (lookup_field_sliced fs0 names fs col).
Qed.

(** A list with an item that is not a string, a list of integers for
    instance, is refused with the index error that carries the keys, on a
    flattened file as on a structured one. *)
Theorem getitem_list_not_strings v ks (l : list index) :
  keys v = Ok ks -> Exists (fun k => is_string k = false) l ->
  getitem v (IList l) = Raise (IndexError_string_keys ks).
Proof.
  intros Hks Hex. simpl. unfold getitem_columns.
  assert (forallb is_string l = false) as ->.
  { induction Hex as [k l Hk|k l _ IH]; simpl.
    - by rewrite Hk.
    - rewrite IH. apply andb_false_r. }
  simpl. by rewrite Hks.
Qed.

(** Names that are not all keys are refused with the invalid-key error and
    no view is made; the error carries the names of the index, so for a
    single unknown name, that name. *)
Theorem getitem_unknown_names v fs :
  structured v fs ->
  (forall names, ~ valid_columns v names ->
     getitem v (IList (IStr <$> names))
       = Raise (IndexError_invalid_keys (IStr <$> names))) /\
  (forall x : string, x ∉ map fst fs ->
     getitem v (IStr x) = Raise (IndexError_invalid_keys [IStr x])).
Proof.
  intros Hs. split.
  - intros names Hinv. by apply (getitem_invalid_keys v fs).
  - intros x Hx. rewrite getitem_string_list.
    rewrite (getitem_invalid_keys v fs [x]); [done|done|].
    intros (ks & Hks & Hall).
    pose proof (keys_structured v fs Hs) as Hks'.
    assert (ks = map fst fs) as -> by congruence.
    apply Hx. rewrite Forall_forall in Hall. apply Hall, list_elem_of_here.
Qed.

(** *** After asarray *)

(** The object that [asarray] returns has the keys, the number of columns
    and the length of the file it was made from and a shape that starts
    with its size; it is the end of the line: [asarray] fails on it, and so
    does indexing it with a column name. *)
Theorem asarray_terminal v w :
  asarray v = Ok w ->
  keys w = keys v /\ ncol w = ncol v /\ len w = len v /\
  (exists sub, shape w = size v :: sub) /\
  asarray w = Raise ValueError_no_named_fields /\
  (forall x : string, getitem w (IStr x) = Raise IndexError_after_asarray).
Proof.
  intros H. apply asarray_inv in H as (f0 & cols & sub & _ & Hkeys & ->).
  unfold ncol, keys in *. simpl. rewrite Hkeys.
  split; [done|]. split; [done|]. split; [done|]. split; [by exists sub|]. done.
Qed.

(** *** The objects derived from a root *)

Lemma getitem_file_inv p (s : index) v :
  getitem p s = Ok (VFile v) ->
  exists (l : list index) (b : bool),
    getitem_columns (ndarray:=ndarray) p l b = Ok (VFile v).
Proof.
  destruct s as [x|l|t| | | |]; simpl; intros H; eauto;
    try (by apply getitem_rows_array in H as (a & ?)).
  destruct (decide _); [done|].
  destruct t as [|s0 [|s1 [|s2 t]]]; try done;
    by apply getitem_rows_array in H as (a & ?).
Qed.

Lemma asarray_of_column_view fields (n : Z) p v :
  column_view fields n p -> asarray p = Ok v -> flat_view fields n v.
Proof.
  intros (fs & Hdt & Hnd & Hsub & Hcols & _ & Hsize) Has.
  apply asarray_inv in Has as (f0 & cols & sub & _ & Hkeys & ->).
  unfold keys, columns in Hkeys. rewrite Hcols, Hdt in Hkeys.
  injection Hkeys as <-.
  exists (f_base f0), (map fst fs), sub. simpl. rewrite Hsize.
  repeat split; try done.
  intros x Hx. apply list_elem_of_fmap in Hx as (nf & -> & Hnf).
  apply list_elem_of_fmap. exists nf. split; [done|]. by apply Hsub.
Qed.

Lemma getitem_columns_of_column_view fields (n : Z) p (l : list index) (b : bool) v :
  column_view fields n p ->
  getitem_columns (ndarray:=ndarray) p l b = Ok (VFile v) ->
  column_view fields n v \/ flat_view fields n v.
Proof.
  intros (fs & Hdt & Hnd & Hsub & Hcols & _ & Hsize) H.
  apply getitem_columns_inv in H
    as (names & fs0 & fs' & -> & Hdt' & _ & Hfs' & Hnd' & Hnames & Hobj).
  assert (fs0 = fs) as -> by congruence.
  destruct (sliced_fields_inv _ _ _ Hfs') as [_ Hlook].
  match type of Hobj with
  | let obj := ?o in _ => assert (column_view fields n o) as Hview
  end.
  { exists fs'. simpl. split; [done|]. split; [by rewrite Hnames|].
    split; [|done]. intros [c f] Hin. apply Hsub.
    rewrite Forall_forall in Hlook.
    by apply lookup_field_Some_elem_of, (Hlook (c, f)). }
  simpl in Hobj. destruct (_ && _).
  - destruct Hobj as (w & Hw & [= ->]). right.
    by apply (asarray_of_column_view fields n _ w Hview).
  - injection Hobj as ->. by left.
Qed.

Lemma derived_kinds r fields v :
  is_root r fields -> derived r v ->
  column_view fields (size r) v \/ flat_view fields (size r) v.
Proof.
  intros (Hdt & Hnd & Hcols & Hshape & _) Hd.
  induction Hd as [|p s v _ IH Hget|p v _ IH Has].
  - left. by exists fields.
  - apply getitem_file_inv in Hget as (l & b & Hget).
    destruct IH as [IH|(t & cols & sub & Hpdt & _)].
    + by apply (getitem_columns_of_column_view fields _ p l b).
    + apply getitem_columns_inv in Hget as (? & fs0 & ? & _ & Hdt' & _). congruence.
  - destruct IH as [IH|(t & cols & sub & Hpdt & _)].
    + right. by apply (asarray_of_column_view fields _ p).
    + apply asarray_inv in Has as (f0 & ? & ? & Hf0 & _).
      rewrite Hpdt in Hf0. done.
Qed.

(** Every object derived from a root by indexing and [asarray] is either a
    view of some of the root's columns, structured, with the default
    [columns] and [shape], or a flattened view with its own [columns] and
    [shape].  Either way it has the root's size, its shape starts with that
    size, and its keys are never missing: they are among the root's column
    names, no name twice, and [ncol] is their number. *)
Theorem derived_invariant r fields v :
  is_root r fields -> derived r v ->
  (column_view fields (size r) v \/ flat_view fields (size r) v) /\
  len v = len r /\
  (exists rest, shape v = size r :: rest) /\
  exists ks, keys v = Ok ks /\ NoDup ks /\ ks ⊆ map fst fields /\
             ncol v = Ok (Z.of_nat (length ks)).
Proof.
  intros Hroot Hd.
  pose proof (derived_kinds r fields v Hroot Hd) as Hk.
  split; [done|].
  destruct Hk as [(fs & Hdt & Hnd & Hsub & Hcols & Hshape & Hsize)
                 |(t & cols & sub & Hdt & Hcols & Hnd & Hsub & Hshape & Hsize)].
  - split; [done|]. split.
    { exists []. unfold shape. by rewrite Hshape, Hsize. }
    assert (keys v = Ok (map fst fs)) as Hkeys
      by (unfold keys, columns; by rewrite Hcols, Hdt).
    exists (map fst fs). split; [done|]. split; [done|]. split.
    + intros x Hx. apply list_elem_of_fmap in Hx as (nf & -> & Hnf).
      apply list_elem_of_fmap. exists nf. split; [done|]. by apply Hsub.
    + unfold ncol. fold (keys v). by rewrite Hkeys.
  - split; [done|]. split.
    { exists sub. unfold shape. by rewrite Hshape. }
    assert (keys v = Ok cols) as Hkeys by (unfold keys, columns; by rewrite Hcols).
    exists cols. split; [done|]. split; [done|]. split; [done|].
    unfold ncol. fold (keys v). by rewrite Hkeys.
Qed.

(** *** Tuples *)

(** A 1-tuple of an integer or a slice is that integer or slice, and so is
    a 2-tuple whose second item is [None]; a tuple of any other length is
    always refused; and a tuple does not select columns: an item that is
    not an integer or a slice, a column name for instance, is refused. *)
Theorem getitem_tuple_laws v :
  (forall k, is_row_index k -> shape v <> [] ->
     getitem v (ITuple [k]) = getitem v k) /\
  (forall k, is_row_index k -> (2 <= length (shape v))%nat ->
     getitem v (ITuple [k; INone]) = getitem v k) /\
  (forall t, length t <> 1%nat -> length t <> 2%nat ->
     getitem v (ITuple t) =
       Raise (IndexError_file_dimension (Z.of_nat (length (shape v)))
                                        (Z.of_nat (length t))) \/
     getitem v (ITuple t) = Raise (IndexError_tuple_not_understood t)) /\
  (forall k j, ~ is_row_index k ->
     (shape v <> [] -> getitem v (ITuple [k]) = Raise (IndexError_not_understood k)) /\
     ((2 <= length (shape v))%nat ->
      getitem v (ITuple [k; j]) = Raise (IndexError_not_understood k))).
Proof.
  assert (shape v <> [] -> ~ (length (shape v) < 1)%nat) as Hrank.
  { destruct (shape v); [done|]. simpl. lia. }
  split; [|split; [|split]].
  - intros k Hk Hshape. rewrite (getitem_row_index v k Hk). unfold getitem.
    by rewrite decide_False by auto.
  - intros k Hk Hshape. rewrite (getitem_row_index v k Hk). unfold getitem.
    by rewrite decide_False by (simpl; lia).
  - intros t H1 H2. unfold getitem. destruct (decide _); [by left|]. right.
    by destruct t as [|s0 [|s1 [|s2 t]]].
  - intros k j Hk. split; intros Hshape; unfold getitem.
    + rewrite decide_False by auto. unfold getitem_rows. by destruct k.
    + rewrite decide_False by (simpl; lia). unfold getitem_rows. by destruct k.
Qed.

(** *** The rows asked of the backend *)

Lemma slice_indices_bounds (a b c : option Z) (n start stop step : Z) :
  slice_indices a b c n = Ok (start, stop, step) ->
  0 <= n /\ step = default 1 c /\ step <> 0 /\
  (0 < step -> 0 <= start <= n /\ 0 <= stop <= n) /\
  (step < 0 -> -1 <= start <= n - 1 /\ -1 <= stop <= n - 1).
Proof.
  unfold slice_indices. intros H.
  destruct (decide (n < 0)); [done|].
  destruct (decide (default 1 c = 0)) as [|Hc]; [done|].
  injection H as <- <- <-.
  split; [lia|]. split; [done|]. split; [done|].
  destruct (bool_decide (default 1 c < 0)) eqn:Hneg;
    [apply bool_decide_eq_true in Hneg|apply bool_decide_eq_false in Hneg].
  - split; [lia|]. intros _.
    split; [destruct a as [x|]|destruct b as [x|]];
      try destruct (decide (x < 0)); lia.
  - split; [|lia]. intros _.
    split; [destruct a as [x|]|destruct b as [x|]];
      try destruct (decide (x < 0)); lia.
Qed.

(** Whenever indexing with a slice returns, the backend has been asked,
    with the keys of the file, for rows within the file: both ends between
    [0] and [size] for a positive step, between [-1] and [size - 1] for a
    negative one, and a step that is not zero.  An integer is not checked
    in this way: beyond the last row it is passed on to the backend as it
    is. *)
Theorem getitem_slice_bounds v ks :
  keys v = Ok ks ->
  (forall (a b c : option Z) (r : value A ndarray),
     getitem v (ISlice a b c) = Ok r ->
     exists start stop step toret,
       read (owner v) ks start stop step = Ok toret /\
       step = default 1 c /\ step <> 0 /\
       (0 < step -> 0 <= start <= size v /\ 0 <= stop <= size v) /\
       (step < 0 -> -1 <= start <= size v - 1 /\ -1 <= stop <= size v - 1)) /\
  (forall i : Z,
     0 <= size v -> size v <= i ->
     getitem v (IInt i) =
       toret ← read (owner v) ks i (i + 1) 1;
       toret ← view_as_array v toret;
       mret (VArray toret)).
Proof.
  intros Hks. split.
  - intros a b c r H. simpl in H. rewrite (getitem_rows_keys v ks) in H by done.
    apply bind_Ok_inv in H as ([[start stop] step] & Hrange & H).
    apply bind_Ok_inv in H as (toret & Hread & _).
    exists start, stop, step, toret. split; [done|].
    simpl in Hrange. by apply slice_indices_bounds in Hrange as (_ & ? & ? & ? & ?).
  - intros i Hsize Hi. simpl. rewrite (getitem_rows_keys v ks) by done.
    simpl. by rewrite decide_False by lia.
Qed.

End FileTypeLaws.

(** ** The further properties at work on the file held in memory *)

Section MemoryFileLaws.

Import MemoryFile.

Lemma catalog_is_root : is_root catalog catalog_fields.
Proof.
  split; [reflexivity|]. split; [compute_done|].
  split; [reflexivity|]. split; reflexivity.
Qed.

Lemma getitem_same_view_witness :
  same_view dec_ra dec_ra_loaded /\
  getitem dec_ra (IInt 0) = getitem dec_ra_loaded (IInt 0) /\
  asarray dec_ra = asarray dec_ra_loaded.
Proof.
  assert (same_view dec_ra dec_ra_loaded) as Hsame by (repeat split).
  split; [exact Hsame|].
  destruct (getitem_same_view (ndarray:=array) dec_ra dec_ra_loaded Hsame)
    as [Hget Has].
  split; [exact (Hget (IInt 0))|exact Has].
Defined.

Lemma getitem_all_columns_witness :
  structured catalog catalog_fields /\ _shape catalog = None /\
  exists w,
    getitem catalog (IList [IStr "ra"; IStr "dec"; IStr "z"]) = Ok (VFile w) /\
    getitem w (ISlice None None None) = getitem catalog (ISlice None None None).
Proof.
  assert (_shape catalog = None) as Hshape by reflexivity.
  split; [exact catalog_structured|]. split; [exact Hshape|].
  destruct (getitem_all_columns (ndarray:=array) catalog catalog_fields
              catalog_structured Hshape)
    as (w & Hget & _ & _ & _ & _ & Hsame & _).
  exists w. split; [exact Hget|exact (Hsame (ISlice None None None))].
Defined.

Lemma getitem_columns_compose_witness :
  structured catalog catalog_fields /\ NoDup ["dec"; "ra"] /\
  valid_columns catalog ["dec"; "ra"] /\
  Forall (fun n => n ∈ ["dec"; "ra"]) ["ra"] /\
  exists u,
    getitem catalog (IList [IStr "dec"; IStr "ra"]) = Ok (VFile u) /\
    getitem u (IList [IStr "ra"]) = getitem catalog (IList [IStr "ra"]) /\
    getitem u (IStr "dec") = getitem catalog (IStr "dec").
Proof.
  assert (NoDup ["dec"; "ra"]) as Hnd by compute_done.
  assert (valid_columns catalog ["dec"; "ra"]) as Hvalid
    by (apply catalog_valid; compute_done).
  assert (Forall (fun n => n ∈ ["dec"; "ra"]) ["ra"]) as Hsub by compute_done.
  split; [exact catalog_structured|]. split; [exact Hnd|].
  split; [exact Hvalid|]. split; [exact Hsub|].
  destruct (getitem_columns_compose (ndarray:=array) catalog catalog_fields
              ["dec"; "ra"] ["ra"] catalog_structured Hnd Hvalid Hsub)
    as (u & Hget & Hlist & Hstr).
  exists u. split; [exact Hget|]. split; [exact Hlist|].
  apply Hstr. compute_done.
Defined.

Lemma getitem_list_sound_witness :
  getitem catalog (IList [IStr "dec"; IStr "ra"]) = Ok (VFile dec_ra) /\
  exists names,
    [IStr "dec"; IStr "ra"] = IStr <$> names /\ NoDup names /\
    columns dec_ra = Ok names /\
    (forall col, col ∈ names ->
       dtype_getitem (dtype dec_ra) col = dtype_getitem (dtype catalog) col).
Proof.
  assert (getitem catalog (IList [IStr "dec"; IStr "ra"]) = Ok (VFile dec_ra))
    as Hget by reflexivity.
  split; [exact Hget|].
  destruct (getitem_list_sound catalog _ dec_ra Hget)
    as (names & Hl & Hnd & _ & Hcols & _ & _ & Hfields).
  exists names. split; [exact Hl|]. split; [exact Hnd|].
  split; [exact Hcols|exact Hfields].
Defined.

Lemma getitem_list_not_strings_witness :
  keys catalog = Ok ["ra"; "dec"; "z"] /\
  Exists (fun k => is_string k = false) [IInt 0; IInt 1] /\
  getitem catalog (IList [IInt 0; IInt 1])
    = Raise (IndexError_string_keys ["ra"; "dec"; "z"]).
Proof.
  assert (keys catalog = Ok ["ra"; "dec"; "z"]) as Hks by reflexivity.
  assert (Exists (fun k => is_string k = false) [IInt 0; IInt 1]) as Hex
    by (apply Exists_cons_hd; reflexivity).
  split; [exact Hks|]. split; [exact Hex|].
  exact (getitem_list_not_strings (ndarray:=array) catalog _ _ Hks Hex).
Defined.

Lemma getitem_unknown_names_witness :
  structured catalog catalog_fields /\ ("zz" ∉ map fst catalog_fields) /\
  getitem catalog (IStr "zz") = Raise (IndexError_invalid_keys [IStr "zz"]).
Proof.
  assert ("zz" ∉ map fst catalog_fields) as Hzz by compute_done.
  split; [exact catalog_structured|]. split; [exact Hzz|].
  exact (proj2 (getitem_unknown_names (ndarray:=array) catalog catalog_fields
                  catalog_structured) "zz" Hzz).
Defined.

Lemma asarray_terminal_witness :
  asarray dec_ra = Ok dec_ra_array /\
  keys dec_ra_array = keys dec_ra /\
  ncol dec_ra_array = Ok 2 /\
  asarray dec_ra_array = Raise ValueError_no_named_fields.
Proof.
  assert (asarray dec_ra = Ok dec_ra_array) as Has by reflexivity.
  split; [exact Has|].
  destruct (asarray_terminal (ndarray:=array) dec_ra dec_ra_array Has)
    as (Hkeys & Hncol & _ & _ & Hagain & _).
  split; [exact Hkeys|]. split; [rewrite Hncol; reflexivity|exact Hagain].
Defined.

Lemma derived_invariant_witness :
  is_root catalog catalog_fields /\
  derived catalog dec_ra_array /\
  len dec_ra_array = 3 /\
  exists ks, keys dec_ra_array = Ok ks /\ ks ⊆ map fst catalog_fields.
Proof.
  assert (derived (ndarray:=array) catalog dec_ra_array) as Hd.
  { apply (derived_asarray catalog dec_ra).
    - apply (derived_getitem catalog catalog (IList [IStr "dec"; IStr "ra"])).
      + apply derived_root.
      + reflexivity.
    - reflexivity. }
  split; [exact catalog_is_root|]. split; [exact Hd|].
  destruct (derived_invariant catalog catalog_fields dec_ra_array
              catalog_is_root Hd)
    as (_ & Hlen & _ & ks & Hks & _ & Hsub & _).
  split; [exact Hlen|]. exists ks. split; [exact Hks|exact Hsub].
Defined.

Lemma getitem_tuple_laws_witness :
  is_row_index (IInt 0) /\ shape catalog <> [] /\
  getitem catalog (ITuple [IInt 0]) = getitem catalog (IInt 0) /\
  getitem catalog (ITuple [IStr "ra"])
    = Raise (IndexError_not_understood (IStr "ra")).
Proof.
  assert (shape catalog <> []) as Hshape by discriminate.
  split; [exact I|]. split; [exact Hshape|].
  destruct (getitem_tuple_laws (ndarray:=array) catalog) as (Hone & _ & _ & Hbad).
  split; [exact (Hone (IInt 0) I Hshape)|].
  exact (proj1 (Hbad (IStr "ra") INone (fun H => H)) Hshape).
Defined.

Lemma getitem_slice_bounds_witness :
  keys dec_ra = Ok ["dec"; "ra"] /\
  getitem dec_ra (ISlice (Some 1) (Some 100) None)
    = Ok (VArray (Records ["dec"; "ra"] [[-1; 140]; [45; 129]])) /\
  exists start stop step toret,
    read (owner dec_ra) ["dec"; "ra"] start stop step = Ok toret /\
    step = 1 /\ 0 <= start <= 3 /\ 0 <= stop <= 3.
Proof.
  assert (keys dec_ra = Ok ["dec"; "ra"]) as Hks by reflexivity.
  assert (getitem dec_ra (ISlice (Some 1) (Some 100) None)
            = Ok (VArray (Records ["dec"; "ra"] [[-1; 140]; [45; 129]])))
    as Hget by reflexivity.
  split; [exact Hks|]. split; [exact Hget|].
  destruct (proj1 (getitem_slice_bounds dec_ra _ Hks) _ _ _ _ Hget)
    as (start & stop & step & toret & Hread & Hstep & _ & Hpos & _).
  simpl in Hstep. exists start, stop, step, toret.
  split; [exact Hread|]. split; [exact Hstep|].
  apply Hpos. rewrite Hstep. reflexivity.
Defined.

End MemoryFileLaws.
